(** * Barcelona_design: error classifier, validator adapter and configuration loader

    A shallow embedding of
      - [src/middleware/errorHandler.js]  ([AppError], [errorHandler]),
      - [src/middleware/validator.js]     ([validate]),
      - [src/controllers/mainController.js] ([simulateError], [ConfigManager]),
    together with the properties the specification states about them. *)

From Stdlib Require Import ZArith List String Ascii Bool Lia DecimalString.
From Stdlib Require Import Permutation.
Import ListNotations.
Local Open Scope string_scope.
Local Open Scope Z_scope.
Set Warnings "-register-all".

(** ** JavaScript values

    The fragment of the language the three source files exercise.  Numbers are
    integers (status codes, error codes and ports are integral; fractional
    doubles, NaN literals and infinities are outside the model).  An object is
    the list of its own properties in enumeration order, each with its
    [enumerable] attribute, followed by the data properties it inherits through
    its prototype chain.  A built-in function is known by its name only;
    there are no accessors of the program's own, frozen objects or proxies. *)

Module JS.

Inductive value : Type :=
| VUndef
| VNull
| VBool (b : bool)
| VNum (n : Z)
| VStr (s : string)
| VObj (own : list (string * (bool * value))) (inh : list (string * value))
| VFun (name : string).

Record object : Type := mkObject
{ own : list (string * (bool * value));
  inh : list (string * value) }.

Definition of_object (o : object) : value := VObj (own o) (inh o).

(** A plain object literal [{k1: v1, ...}]: every property is enumerable and
  nothing but [Object.prototype] is inherited. *)
Definition literal (kvs : list (string * value)) : object :=
mkObject (map (fun kv => (fst kv, (true, snd kv))) kvs) [].

Fixpoint assoc {A : Type} (k : string) (l : list (string * A)) : option A :=
match l with
| [] => None
| (k', a) :: l' => if String.eqb k k' then Some a else assoc k l'
end.

(** [o.k] for the keys the handlers and the validation read, none of which
    [Object.prototype] has: own property first, then the prototype chain,
    else [undefined]. *)
Definition get (o : object) (k : string) : value :=
match assoc k (own o) with
| Some (_, v) => v
| None => match assoc k (inh o) with
          | Some v => v
          | None => VUndef
          end
end.

Fixpoint update (k : string) (v : value) (l : list (string * (bool * value)))
: list (string * (bool * value)) :=
match l with
| [] => [(k, (true, v))]
| (k', (e, v')) :: l' =>
    if String.eqb k k' then (k', (e, v)) :: l' else (k', (e, v')) :: update k v l'
end.

(** [o.k = v]: an existing own property keeps its place and attributes, a new
  one is created enumerable at the end. *)
Definition set (o : object) (k : string) (v : value) : object :=
mkObject (update k v (own o)) (inh o).

(** [{...o}]: the own enumerable properties, in order, on a fresh plain object. *)
Definition spread (o : object) : object :=
mkObject (filter (fun p => fst (snd p)) (own o)) [].

(** ToBoolean. *)
Definition truthy (v : value) : bool :=
match v with
| VUndef | VNull => false
| VBool b => b
| VNum n => negb (n =? 0)
| VStr s => negb (String.eqb s "")
| VObj _ _ => true
| VFun _ => true
end.

(** [a || b]. *)
Definition or_else (a b : value) : value := if truthy a then a else b.

(** [v === 'lit'] and [v === n]. *)
Definition is_str (v : value) (lit : string) : bool :=
match v with VStr s => String.eqb s lit | _ => false end.

Definition is_num (v : value) (n : Z) : bool :=
match v with VNum m => m =? n | _ => false end.

(** ToString.  Objects carry no [toString] of their own in the model, so they
  print as [Object.prototype.toString] prints them. *)
Definition to_string (v : value) : string :=
match v with
| VUndef => "undefined"
| VNull => "null"
| VBool true => "true"
| VBool false => "false"
| VNum n => NilZero.string_of_int (Z.to_int n)
| VStr s => s
| VObj _ _ => "[object Object]"
| VFun name => "function " ++ name ++ "() { [native code] }"
end.

(** [Object.values(v)]: throws on [undefined] and [null] ([None]); a string
  yields its characters, other primitives yield nothing. *)
Definition Object_values (v : value) : option (list value) :=
match v with
| VUndef | VNull => None
| VBool _ | VNum _ | VFun _ => Some []
| VStr s => Some (map (fun c => VStr (String c "")) (list_ascii_of_string s))
| VObj own _ => Some (map (fun p => snd (snd p)) (filter (fun p => fst (snd p)) own))
end.

(** [v.k] on an arbitrary value: throws on [undefined] and [null] ([None]);
  the primitive wrappers have none of the properties read here. *)
Definition member (v : value) (k : string) : option value :=
match v with
| VUndef | VNull => None
| VBool _ | VNum _ | VStr _ | VFun _ => Some VUndef
| VObj own inh => Some (get (mkObject own inh) k)
end.

(** One element of [Array.prototype.join]: [undefined] and [null] print empty. *)
Definition join_text (v : value) : string :=
match v with
| VUndef | VNull => ""
| _ => to_string v
end.

Definition join (sep : string) (vs : list value) : string :=
String.concat sep (map join_text vs).

(** *** JSON, as [res.json] serialises a body *)

Inductive json : Type :=
| JNull
| JBool (b : bool)
| JNum (n : Z)
| JStr (s : string)
| JObject (fields : list (string * json)).

(** [JSON.stringify]: own enumerable properties only, and a property whose
  value is [undefined] or a function is left out. *)
Fixpoint stringify (v : value) : option json :=
match v with
| VUndef | VFun _ => None
| VNull => Some JNull
| VBool b => Some (JBool b)
| VNum n => Some (JNum n)
| VStr s => Some (JStr s)
| VObj own _ =>
    Some (JObject
      ((fix fields (l : list (string * (bool * value))) : list (string * json) :=
          match l with
          | [] => []
          | (k, (e, v')) :: l' =>
              if e then
                match stringify v' with
                | Some j => (k, j) :: fields l'
                | None => fields l'
                end
              else fields l'
          end) own))
end.


(** The members every object inherits from [Object.prototype], which a
    property read reaches when neither the object nor its own prototypes
    have the key: eleven built-in functions, and [__proto__], which reads as
    the prototype itself. *)
Definition Object_prototype_functions : list (string * value) :=
  [("constructor", VFun "Object");
   ("__defineGetter__", VFun "__defineGetter__");
   ("__defineSetter__", VFun "__defineSetter__");
   ("hasOwnProperty", VFun "hasOwnProperty");
   ("__lookupGetter__", VFun "__lookupGetter__");
   ("__lookupSetter__", VFun "__lookupSetter__");
   ("isPrototypeOf", VFun "isPrototypeOf");
   ("propertyIsEnumerable", VFun "propertyIsEnumerable");
   ("toString", VFun "toString");
   ("valueOf", VFun "valueOf");
   ("toLocaleString", VFun "toLocaleString")].

Definition Object_prototype : value :=
  VObj (map (fun kv => (fst kv, (false, snd kv))) Object_prototype_functions) [].

Definition Object_prototype_member (k : string) : value :=
  if String.eqb k "__proto__" then Object_prototype
  else match assoc k Object_prototype_functions with
       | Some f => f
       | None => VUndef
       end.

(** [o[k]] for an arbitrary key on an object whose chain ends in
    [Object.prototype]: as [get], then the members of [Object.prototype]. *)
Definition lookup (o : object) (k : string) : value :=
  match assoc k (own o) with
  | Some (_, v) => v
  | None => match assoc k (inh o) with
            | Some v => v
            | None => Object_prototype_member k
            end
  end.


End JS.

Import JS.

(** ** The runtime around a handler

    [NODE_ENV] is [process.env.NODE_ENV]; [captureStackTrace m] is the text the
    engine stores in [stack] when [new AppError(m, ...)] runs. *)

Record runtime : Type := mkRuntime
  { NODE_ENV : option string;
    captureStackTrace : value -> string }.

Definition development (rt : runtime) : bool :=
  match NODE_ENV rt with
  | Some s => String.eqb s "development"
  | None => false
  end.

(** ** [src/middleware/errorHandler.js] *)

(** [new AppError(message, statusCode, isOperational = true)]; an omitted
    argument is [undefined].  [Error(message)] installs [stack] and, unless
    [message] is [undefined], an own non-enumerable [message]; the three
    assignments add enumerable properties; [name] and the empty default
    [message] come from [Error.prototype]. *)
Definition AppError (rt : runtime) (message statusCode isOperational : value)
  : object :=
  mkObject
    ([("stack", (false, VStr (captureStackTrace rt message)))]
     ++ match message with
        | VUndef => []
        | _ => [("message", (false, VStr (to_string message)))]
        end
     ++ [("statusCode", (true, statusCode));
         ("isOperational", (true, match isOperational with
                                  | VUndef => VBool true
                                  | given => given
                                  end));
         ("status", (true, VStr (if String.prefix "4" (to_string statusCode)
                                 then "fail" else "error")))])
    [("name", VStr "Error"); ("message", VStr "")].

(** What [res.status(code).json(body)] writes, and the line [console.error]
    printed before it (the original failure, in a development build). *)
Record response : Type := mkResponse
  { logged : option object;
    statusCode : value;
    body : object }.

Inductive completion : Type :=
| Returned (r : response)
| Threw (what : string).

(** The message rule 3 builds:
    [Object.values(err.errors).map(val => val.message).join(', ')]. *)
Fixpoint messages (vals : list value) : option (list value) :=
  match vals with
  | [] => Some []
  | v :: vs =>
      match member v "message" with
      | None => None
      | Some m => match messages vs with
                  | None => None
                  | Some ms => Some (m :: ms)
                  end
      end
  end.

Definition validation_message (errors : value) : option string :=
  match Object_values errors with
  | None => None
  | Some vals => match messages vals with
                 | None => None
                 | Some ms => Some (join ", " ms)
                 end
  end.

(** [errorHandler(err, req, res, next)].  The result is the failure record as
    the handler leaves it, and either the response it wrote or the exception
    it raised. *)
Definition errorHandler (rt : runtime) (err0 : object) : object * completion :=
  let err1 := set err0 "statusCode" (or_else (get err0 "statusCode") (VNum 500)) in
  let err := set err1 "message"
                 (or_else (get err1 "message") (VStr "Internal Server Error")) in
  let error := spread err in
  let error := set error "message" (get err "message") in
  let error := set error "statusCode" (get err "statusCode") in
  let error :=
    if is_str (get err "name") "CastError"
    then AppError rt (VStr "Invalid ID format") (VNum 400) VUndef else error in
  let error :=
    if is_num (get err "code") 11000
    then AppError rt (VStr "Duplicate field value entered") (VNum 400) VUndef
    else error in
  let after_validation :=
    if is_str (get err "name") "ValidationError"
    then match validation_message (get err "errors") with
         | Some message => Some (AppError rt (VStr message) (VNum 400) VUndef)
         | None => None
         end
    else Some error in
  match after_validation with
  | None => (err, Threw "TypeError")
  | Some error =>
      let error :=
        if is_str (get err "name") "JsonWebTokenError"
        then AppError rt (VStr "Invalid token") (VNum 401) VUndef else error in
      let error :=
        if is_str (get err "name") "TokenExpiredError"
        then AppError rt (VStr "Token expired") (VNum 401) VUndef else error in
      (err,
       Returned
         (mkResponse
            (if development rt then Some err else None)
            (get error "statusCode")
            (literal
               [("status", get error "status");
                ("error", of_object error);
                ("message", get error "message");
                ("stack", if development rt then get error "stack"
                          else of_object (literal []))])))
  end.

(** Observers of a run. *)
Definition written (c : object * completion) : option response :=
  match snd c with Returned r => Some r | Threw _ => None end.

Definition wire (r : response) : option json := stringify (of_object (body r)).

(** Sample runtimes and failures. *)
Definition production : runtime :=
  mkRuntime (Some "production") (fun _ => "Error\n    at new AppError").

Definition dev : runtime :=
  mkRuntime (Some "development") (fun _ => "Error\n    at new AppError").

(** A production runtime whose engine captures another trace. *)
Definition production_elsewhere : runtime :=
  mkRuntime (Some "production") (fun _ => "Error\n    at elsewhere").

(** [new Error(m)] as the engine builds it. *)
Definition native_error (m stack : string) : object :=
  mkObject [("stack", (false, VStr stack)); ("message", (false, VStr m))]
           [("name", VStr "Error"); ("message", VStr "")].


(** [new Error()] with no message: only the inherited empty one. *)
Definition bare_error (stack : string) : object :=
  mkObject [("stack", (false, VStr stack))]
           [("name", VStr "Error"); ("message", VStr "")].

(** ** The classification rules of the specification, section 4.1 *)

Inductive kind : Type :=
| CastMismatch
| DuplicateKey
| FieldValidation
| MalformedCredential
| ExpiredCredential.

Definition rules : list kind :=
  [CastMismatch; DuplicateKey; FieldValidation; MalformedCredential; ExpiredCredential].

Definition matches (err : object) (k : kind) : bool :=
  match k with
  | CastMismatch => is_str (get err "name") "CastError"
  | DuplicateKey => is_num (get err "code") 11000
  | FieldValidation => is_str (get err "name") "ValidationError"
  | MalformedCredential => is_str (get err "name") "JsonWebTokenError"
  | ExpiredCredential => is_str (get err "name") "TokenExpiredError"
  end.

(** The rules a failure matches, in the order of section 4.1. *)
Definition matching (err : object) : list kind := filter (matches err) rules.

(** The table entry of a rule: status code and message. *)
Definition entry (err : object) (k : kind) : option (Z * string) :=
  match k with
  | CastMismatch => Some (400, "Invalid ID format")
  | DuplicateKey => Some (400, "Duplicate field value entered")
  | FieldValidation =>
      option_map (fun m => (400, m)) (validation_message (get err "errors"))
  | MalformedCredential => Some (401, "Invalid token")
  | ExpiredCredential => Some (401, "Token expired")
  end.

(** The handler wrote a response with this code, message and status. *)
Definition responds (c : object * completion) (code : Z) (message status : string) : Prop :=
  exists r, written c = Some r /\
            statusCode r = VNum code /\
            get (body r) "message" = VStr message /\
            get (body r) "status" = VStr status.

(** The failure record as lines 37-38 leave it. *)
Definition with_defaults (err : object) : object :=
  set (set err "statusCode" (or_else (get err "statusCode") (VNum 500)))
      "message"
      (or_else (get (set err "statusCode" (or_else (get err "statusCode") (VNum 500)))
                    "message")
               (VStr "Internal Server Error")).

(** The earliest and the latest rule a failure matches. *)
Definition first_match (err : object) : option kind := hd_error (matching err).
Definition last_match (err : object) : option kind := hd_error (rev (matching err)).

(** The body a classified failure is answered with. *)
Definition classified_body (rt : runtime) (code : Z) (message : string) : object :=
  literal
    [("status", VStr "fail");
     ("error", of_object (AppError rt (VStr message) (VNum code) VUndef));
     ("message", VStr message);
     ("stack", if development rt then VStr (captureStackTrace rt (VStr message))
               else of_object (literal []))].

(** A failure no rule matches is answered from its own (defaulted) fields. *)
Definition passthrough (err : object) : object :=
  set (set (spread (with_defaults err)) "message" (get (with_defaults err) "message"))
      "statusCode" (get (with_defaults err) "statusCode").


(** Sample failures: a driver error as the database client raises it, a cast
    error that also carries the duplicate-key code, a credential error with
    that code, and a validation error with two violations. *)
Definition db_failure : object :=
  native_error "connect ECONNREFUSED 10.0.0.5:5432"
               "Error: connect ECONNREFUSED 10.0.0.5:5432\n    at net.js:1141".

Definition cast_failure : object :=
  set (native_error "Cast to ObjectId failed"
                    "CastError: Cast to ObjectId failed\n    at model.js:7")
      "name" (VStr "CastError").

Definition cast_and_duplicate : object :=
  set cast_failure "code" (VNum 11000).

Definition token_and_duplicate : object :=
  set (set (native_error "jwt malformed"
                         "JsonWebTokenError: jwt malformed\n    at verify.js:3")
           "name" (VStr "JsonWebTokenError"))
      "code" (VNum 11000).


Definition malformed_token : object :=
  set (native_error "jwt malformed"
                    "JsonWebTokenError: jwt malformed\n    at verify.js:3")
      "name" (VStr "JsonWebTokenError").

Definition validation_failure : object :=
  set (set (native_error "Validation failed"
                         "ValidationError: Validation failed\n    at document.js:9")
           "name" (VStr "ValidationError"))
      "errors"
      (of_object
         (literal
            [("email", of_object (literal [("message", VStr "Invalid email format")]));
             ("name", of_object (literal [("message", VStr "Name is required")]))])).

(** ** [src/middleware/validator.js] and the route handlers

    What a middleware or a route handler does with a request: it writes the
    response itself, calls [next()], or hands a failure to the error
    middleware with [next(error)]. *)

Inductive outcome (B E : Type) : Type :=
| Responded (code : value) (body : B)
| Next
| NextErr (error : E).

Arguments Responded {B E} code body.
Arguments Next {B E}.
Arguments NextErr {B E} error.

(** The body [validate] answers a rejected request with. *)
Record rejection (entry : Type) : Type := mkRejection
  { success : bool;
    message : string;
    errors : list entry }.

Arguments mkRejection {entry} success message errors.
Arguments success {entry} r.
Arguments message {entry} r.
Arguments errors {entry} r.

(** What [validationResult(req)] returns: [isEmpty()] and [array()]. *)
Record Result (entry : Type) : Type := mkResult
  { isEmpty : bool;
    array : list entry }.

Arguments mkResult {entry} isEmpty array.
Arguments isEmpty {entry} r.
Arguments array {entry} r.

Section Validator.

(** [express-validator] is imported, not part of the repository: requests,
    validation chains, their [run] and [validationResult] are parameters.
    [run] records its findings in the request, or rejects. *)
Variables request validation entry exn : Type.
Variable run : validation -> request -> request + exn.
Variable validationResult : request -> Result entry.

(** The chains run concurrently: [completion validations] is the order in
    which the event loop lets the chains that [map] started complete, a
    rearrangement of [validations] that the program does not choose. *)
Variable completion : list validation -> list validation.

(** The chains settle one after the other in the given order: each records
    its findings when it completes; one that rejects does not stop the
    others, and the rejection that comes first is the one kept. *)
Fixpoint settle (completed : list validation) (req : request)
  : request * option exn :=
  match completed with
  | [] => (req, None)
  | v :: vs =>
      match run v req with
      | inl req' => settle vs req'
      | inr e => (fst (settle vs req), Some e)
      end
  end.

(** [await Promise.all(validations.map(validation => validation.run(req)))]:
    [map] starts every chain before anything is awaited, and [await] resumes
    when all have completed, or throws the first rejection. *)
Definition run_all (validations : list validation) (req : request)
  : request * option exn :=
  settle (completion validations) req.

(** The middleware [validate(validations)] returns, applied to a request. *)
Definition validate (validations : list validation) (req : request)
  : request * outcome (rejection entry) exn :=
  match run_all validations req with
  | (req', Some error) => (req', NextErr error)
  | (req', None) =>
      let errors := validationResult req' in
      if negb (isEmpty errors)
      then (req', Responded (VNum 422)
                    (mkRejection false "Validation failed" (array errors)))
      else (req', Next)
  end.

(** [createError] comes from [../utils/errorHandler], which is not among the
    sources; it is a parameter, and stands for the value the [catch] block
    receives.  [logger.error] only logs. *)
Variable createError : value -> string -> option (list entry) -> object.

(** [simulateError(req, res)]. *)
Definition simulateError (req : request) : outcome object exn :=
  let errors := validationResult req in
  let error :=
    if negb (isEmpty errors)
    then createError (VNum 400) "Validation failed" (Some (array errors))
    else createError (VNum 500) "Simulated server error for testing purposes" None in
  Responded (or_else (get error "statusCode") (VNum 500))
    (literal [("status", VStr "error");
              ("message", or_else (get error "message")
                                  (VStr "Internal server error"))]).

End Validator.

Arguments settle {request validation exn} run completed req.
Arguments run_all {request validation exn} run completion validations req.
Arguments validate {request validation entry exn}
  run validationResult completion validations req.

(** The schedule under which the chains complete in the order they were
    declared. *)
Definition as_declared {A : Type} (l : list A) : list A := l.
Arguments simulateError {request entry exn} validationResult createError req.

(** *** The validation library, as the specification describes it *)

Module FieldChecks.

(** A violation: [(field, message)]. *)
Definition violation : Type := string * string.

(** Modelled from the spec: the field checks [validate] runs and the
    violation list it reads back belong to [express-validator], which the
    repository imports and does not contain.  Following sections 3 and 4.2,
    a rule is a predicate over one field of the payload with the message
    reported when it fails, and a request carries its payload and the
    violations recorded so far. *)
Record rule : Type := mkRule
  { field : string;
    holds : value -> bool;
    complaint : string }.

(** Modelled from the spec: the request context of section 4.2, reduced to
    the payload the rules read and the violation list they fill. *)
Record request : Type := mkRequest
  { payload : object;
    recorded : list violation }.

Definition fails (req : request) (r : rule) : bool :=
  negb (holds r (get (payload req) (field r))).

(** The violation a failing rule reports. *)
Definition reported (r : rule) : violation := (field r, complaint r).

(** Modelled from the spec: running a rule appends its violation when the
    predicate fails, and never rejects. *)
Definition run (r : rule) (req : request) : request + unit :=
  inl (if fails req r
       then mkRequest (payload req) (recorded req ++ [reported r])
       else req).

(** Modelled from the spec: the aggregate check reports failure exactly when
    a violation was recorded, and the list is in recording order. *)
Definition validationResult (req : request) : Result violation :=
  mkResult (match recorded req with [] => true | _ => false end) (recorded req).

(** [runRules(rules, requestContext)] of section 4.2. *)
Definition runRules (completion : list rule -> list rule) (rules : list rule)
    (req : request) : list violation :=
  array (validationResult
           (fst (validate run validationResult completion rules req))).

(** Modelled from the spec: a rule is a predicate over the text of the field
    value (section 4.2); an absent field has the empty text, any other value
    the text the language prints for it. *)
Definition text_of (v : value) : string :=
  match v with
  | VUndef | VNull => ""
  | _ => to_string v
  end.

(** The rule of the scenario in section 8: the text of [name] has 2 to 50
    characters. *)
Definition name_length : rule :=
  mkRule "name"
    (fun v => (2 <=? Z.of_nat (String.length (text_of v)))
              && (Z.of_nat (String.length (text_of v)) <=? 50))
    "Name must be between 2 and 50 characters long".

(** A rule that the text of [password] is not empty. *)
Definition password_required : rule :=
  mkRule "password"
    (fun v => negb (String.eqb (text_of v) ""))
    "Password is required".

End FieldChecks.

(** A request whose [name] is one character long, not yet validated. *)
Definition short_name_request : FieldChecks.request :=
  FieldChecks.mkRequest (literal [("name", VStr "A"); ("password", VStr "")]) [].

(** A [createError] that keeps the status code and the message. *)
Definition createError_plain (code : value) (text : string)
    (details : option (list FieldChecks.violation)) : object :=
  literal [("statusCode", code); ("message", VStr text)].

(** ** [ConfigManager] ([src/controllers/mainController.js]) *)

Module Config.

(** *** Text helpers of [loadEnvConfig] *)

(** Text is held as the bytes of its UTF-8 encoding.  White space is what
    [String.prototype.trim] removes: the WhiteSpace and LineTerminator code
    points, which take one, two or three bytes. *)

(** U+0009..U+000D and U+0020. *)
Definition is_space (c : ascii) : bool :=
  let n := nat_of_ascii c in
  ((9 <=? n) && (n <=? 13))%nat || (n =? 32)%nat.

(** U+00A0. *)
Definition is_space2 (c1 c2 : ascii) : bool :=
  ((nat_of_ascii c1 =? 194) && (nat_of_ascii c2 =? 160))%nat.

(** U+1680, U+2000..U+200A, U+2028, U+2029, U+202F, U+205F, U+3000 and
    U+FEFF. *)
Definition is_space3 (c1 c2 c3 : ascii) : bool :=
  let n1 := nat_of_ascii c1 in
  let n2 := nat_of_ascii c2 in
  let n3 := nat_of_ascii c3 in
  ((n1 =? 225) && (n2 =? 154) && (n3 =? 128)
   || (n1 =? 226) && (n2 =? 128)
      && ((128 <=? n3) && (n3 <=? 138) || (n3 =? 168) || (n3 =? 169) || (n3 =? 175))
   || (n1 =? 226) && (n2 =? 129) && (n3 =? 159)
   || (n1 =? 227) && (n2 =? 128) && (n3 =? 128)
   || (n1 =? 239) && (n2 =? 187) && (n3 =? 191))%nat.

(** Drops the white space a text begins with; with [backwards] the text is
    read from its end, so the bytes of a code point arrive last one first. *)
Fixpoint strip (backwards : bool) (s : string) : string :=
  match s with
  | EmptyString => EmptyString
  | String c1 s1 =>
      if is_space c1 then strip backwards s1
      else
        match s1 with
        | EmptyString => s
        | String c2 s2 =>
            if (if backwards then is_space2 c2 c1 else is_space2 c1 c2)
            then strip backwards s2
            else
              match s2 with
              | EmptyString => s
              | String c3 s3 =>
                  if (if backwards then is_space3 c3 c2 c1 else is_space3 c1 c2 c3)
                  then strip backwards s3
                  else s
              end
        end
  end.

Fixpoint reverse_onto (s acc : string) : string :=
  match s with
  | EmptyString => acc
  | String c s' => reverse_onto s' (String c acc)
  end.

Definition reverse (s : string) : string := reverse_onto s EmptyString.

Definition trim_start (s : string) : string := strip false s.

Definition trim_end (s : string) : string := reverse (strip true (reverse s)).

(** [s.trim()]. *)
Definition trim (s : string) : string := trim_end (trim_start s).

(** [s.split(sep)] for a one-character separator. *)
Fixpoint split (sep : ascii) (s : string) : list string :=
  match s with
  | EmptyString => [EmptyString]
  | String c s' =>
      if Ascii.eqb c sep then EmptyString :: split sep s'
      else match split sep s' with
           | [] => [String c EmptyString]
           | w :: ws => String c w :: ws
           end
  end.

(** [replace] with the global pattern of the two quote characters (single
    and double) and the empty replacement. *)
Fixpoint strip_quotes (s : string) : string :=
  match s with
  | EmptyString => EmptyString
  | String c s' =>
      if Ascii.eqb c "039"%char || Ascii.eqb c "034"%char
      then strip_quotes s' else String c (strip_quotes s')
  end.

(** [process.env] and the object [reduce] accumulates: string keys to
    string values. *)
Definition environment_table : Type := list (string * string).

Fixpoint assign (k v : string) (t : environment_table) : environment_table :=
  match t with
  | [] => [(k, v)]
  | (k', v') :: t' =>
      if String.eqb k k' then (k', v) :: t' else (k', v') :: assign k v t'
  end.

(** [process.env[k] = v]: the environment has no variable with an empty
    name, and an assignment to it leaves no trace. *)
Definition set_variable (k v : string) (t : environment_table) : environment_table :=
  if String.eqb k "" then t else assign k v t.

(** [Object.assign(process.env, source)]. *)
Definition Object_assign (target source : environment_table) : environment_table :=
  fold_left (fun t kv => set_variable (fst kv) (snd kv) t) source target.

(** [acc[k] = v] on the accumulator, which starts as [{}]: the key
    [__proto__] reaches the setter inherited from [Object.prototype], which
    ignores a string, so no property is created. *)
Definition assign_property (k v : string) (acc : environment_table)
  : environment_table :=
  if String.eqb k "__proto__" then acc else assign k v acc.

(** The [envVars] object [loadEnvConfig] builds from the text of [.env]. *)
Definition parse_env (envContent : string) : environment_table :=
  fold_left
    (fun acc line =>
       let parts := split "="%char line in
       let key := hd EmptyString parts in
       let value := nth_error parts 1 in
       assign_property (trim key)
              (match value with
               | Some v => if String.eqb v "" then "" else strip_quotes (trim v)
               | None => ""
               end)
              acc)
    (filter (fun line => negb (String.eqb (trim line) "")
                         && negb (String.prefix "#" line))
            (split "010"%char envContent))
    [].

(** *** The world a load runs in *)

(** The outcome of [fs.readFile]: the text, or an error with its [code]. *)
Inductive read : Type :=
| Content (text : string)
| ReadError (code message : string).

(** The outcome of [JSON.parse]. *)
Inductive parsed : Type :=
| Parsed (v : value)
| SyntaxError (message : string).

(** Files are named relative to [process.cwd()].  [StringToNumber] is the
    engine's conversion of a string to a number, [None] standing for NaN. *)
Record world : Type := mkWorld
  { readFile : string -> read;
    JSON_parse : string -> parsed;
    StringToNumber : string -> option Z }.

(** *** State and exceptions *)

Record ConfigManager : Type := mkConfigManager
  { config : object;
    isLoaded : bool }.

Record state : Type := mkState
  { this : ConfigManager;
    process_env : environment_table }.

Inductive result (A : Type) : Type :=
| Ok (a : A)
| Throw (message : string).

Arguments Ok {A} a.
Arguments Throw {A} message.

Definition M (A : Type) : Type := state -> state * result A.

Definition ret {A} (a : A) : M A := fun s => (s, Ok a).
Definition throw {A} (message : string) : M A := fun s => (s, Throw message).
Definition bind {A B} (m : M A) (f : A -> M B) : M B :=
  fun s => match m s with
           | (s', Ok a) => f a s'
           | (s', Throw e) => (s', Throw e)
           end.
Definition try_catch {A} (m : M A) (handler : string -> M A) : M A :=
  fun s => match m s with
           | (s', Ok a) => (s', Ok a)
           | (s', Throw e) => handler e s'
           end.
Definition read_state : M state := fun s => (s, Ok s).
Definition write_this (cm : ConfigManager) : M unit :=
  fun s => (mkState cm (process_env s), Ok tt).
Definition write_env (t : environment_table) : M unit :=
  fun s => (mkState (this s) t, Ok tt).

Declare Scope config_scope.
Delimit Scope config_scope with config.
Notation "x <- m ;; k" := (bind m (fun x => k))
  (at level 61, m at next level, right associativity) : config_scope.
Notation "m ;; k" := (bind m (fun _ => k))
  (at level 61, right associativity) : config_scope.
Local Open Scope config_scope.

(** *** Conversions the validation uses *)

(** ToNumber; [None] is NaN. *)
Definition to_number (w : world) (v : value) : option Z :=
  match v with
  | VUndef => None
  | VNull => Some 0
  | VBool b => Some (if b then 1 else 0)
  | VNum n => Some n
  | VStr s => StringToNumber w s
  | VObj _ _ | VFun _ => None
  end.

(** [v < n] and [v > n] against a number literal: false on NaN. *)
Definition less (w : world) (v : value) (n : Z) : bool :=
  match to_number w v with Some m => m <? n | None => false end.

Definition greater (w : world) (v : value) (n : Z) : bool :=
  match to_number w v with Some m => n <? m | None => false end.

Definition isNaN (w : world) (v : value) : bool :=
  match to_number w v with Some _ => false | None => true end.

(** [v.startsWith(p)]: only a string has the method; on any other truthy
    value the call is a [TypeError]. *)
Definition startsWith (v : value) (p : string) : option bool :=
  match v with
  | VStr s => Some (String.prefix p s)
  | _ => None
  end.

(** Spreading a value into an object literal: an object gives its own
    enumerable properties, a string its characters, anything else nothing. *)
Definition spread_source (v : value) : list (string * value) :=
  match v with
  | VObj own _ =>
      map (fun p => (fst p, snd (snd p))) (filter (fun p => fst (snd p)) own)
  | VStr s =>
      map (fun ic => (NilZero.string_of_uint (Nat.to_uint (fst ic)),
                      VStr (String (snd ic) EmptyString)))
          (combine (seq 0 (String.length s)) (list_ascii_of_string s))
  | _ => []
  end.

Definition define_all (o : object) (kvs : list (string * value)) : object :=
  fold_left (fun o kv => set o (fst kv) (snd kv)) kvs o.

(** *** The class *)

(** [constructor()]. *)
Definition constructor : ConfigManager := mkConfigManager (literal []) false.

(** [loadEnvConfig()]. *)
Definition loadEnvConfig (w : world) : M unit :=
  match readFile w ".env" with
  | Content envContent =>
      s <- read_state ;;
      write_env (Object_assign (process_env s) (parse_env envContent))
  | ReadError code message =>
      if negb (String.eqb code "ENOENT")
      then throw ("Error al leer el archivo .env: " ++ message)
      else ret tt
  end.

(** [loadEnvironmentConfig()]. *)
Definition loadEnvironmentConfig (w : world) : M unit :=
  s <- read_state ;;
  let environment :=
    match assoc "NODE_ENV" (process_env s) with
    | Some e => if String.eqb e "" then "development" else e
    | None => "development"
    end in
  let configPath := "config/" ++ environment ++ ".json" in
  let failed (code : option string) (message : string) : M unit :=
    match code with
    | Some "ENOENT" =>
        write_this (mkConfigManager
                      (set (config (this s)) "environment" (VStr environment))
                      (isLoaded (this s)))
    | _ => throw ("Error al cargar configuración de entorno: " ++ message)
    end in
  match readFile w configPath with
  | Content configContent =>
      match JSON_parse w configContent with
      | Parsed environmentConfig =>
          write_this
            (mkConfigManager
               (define_all (literal [])
                  (spread_source (of_object (config (this s)))
                   ++ spread_source environmentConfig
                   ++ [("environment", VStr environment)]))
               (isLoaded (this s)))
      | SyntaxError message => failed None message
      end
  | ReadError code message => failed (Some code) message
  end.

Definition required : list string := ["port"; "databaseUrl"; "jwtSecret"].

(** [validateConfig()]. *)
Definition validateConfig (w : world) : M unit :=
  s <- read_state ;;
  let cfg := config (this s) in
  let missing := filter (fun key => negb (truthy (JS.get cfg key))) required in
  if (0 <? List.length missing)%nat
  then throw ("Configuración incompleta. Faltan: " ++ String.concat ", " missing)
  else
  if truthy (JS.get cfg "port")
     && (less w (JS.get cfg "port") 1 || greater w (JS.get cfg "port") 65535)
  then throw "Puerto inválido. Debe estar entre 1 y 65535"
  else
  match startsWith (JS.get cfg "databaseUrl") "mongodb://" with
  | None => throw "this.config.databaseUrl.startsWith is not a function"
  | Some mongo =>
      if negb mongo &&
         negb (match startsWith (JS.get cfg "databaseUrl") "postgres://" with
               | Some b => b
               | None => false
               end)
      then throw "URL de base de datos inválida. Debe ser MongoDB o PostgreSQL"
      else
      if truthy (JS.get cfg "jwtExpiration") && isNaN w (JS.get cfg "jwtExpiration")
      then throw "jwtExpiration debe ser un número válido"
      else ret tt
  end.

(** [loadConfig()]. *)
Definition loadConfig (w : world) : M unit :=
  try_catch
    (loadEnvConfig w ;;
     loadEnvironmentConfig w ;;
     validateConfig w ;;
     s <- read_state ;;
     write_this (mkConfigManager (config (this s)) true))
    (fun message => throw ("Error de configuración: " ++ message)).

(** [get(key, defaultValue = null)].  The key is the caller's, so
    [this.config[key]] can also reach a member of [Object.prototype]. *)
Definition get (key : string) (defaultValue : value) : M value :=
  s <- read_state ;;
  if negb (isLoaded (this s))
  then throw "La configuración no ha sido cargada aún"
  else ret (match lookup (config (this s)) key with
            | VUndef => defaultValue
            | v => v
            end).

(** [getAll()]. *)
Definition getAll : M object :=
  s <- read_state ;;
  if negb (isLoaded (this s))
  then throw "La configuración no ha sido cargada aún"
  else ret (spread (config (this s))).

(** [getDatabaseConfig()]. *)
Definition getDatabaseConfig : M object :=
  url <- get "databaseUrl" VNull ;;
  options <- get "databaseOptions" (of_object (literal [])) ;;
  ret (literal [("url", url); ("options", options)]).

(** [getSecurityConfig()]. *)
Definition getSecurityConfig : M object :=
  jwtSecret <- get "jwtSecret" VNull ;;
  jwtExpiration <- get "jwtExpiration" (VStr "24h") ;;
  sessionSecret <- get "sessionSecret" (VStr "default-session-secret") ;;
  ret (literal [("jwtSecret", jwtSecret);
                ("jwtExpiration", jwtExpiration);
                ("sessionSecret", sessionSecret)]).

(** [getServerConfig()]. *)
Definition getServerConfig : M object :=
  port <- get "port" (VNum 3000) ;;
  host <- get "host" (VStr "localhost") ;;
  sslEnabled <- get "sslEnabled" (VBool false) ;;
  ret (literal [("port", port); ("host", host); ("sslEnabled", sslEnabled)]).

(** *** The module body: build the singleton, load, exit on failure *)

Inductive process : Type :=
| Running (s : state)
| Exited (code : Z) (s : state).

(** [configManager.loadConfig().catch(error => { ...; process.exit(1) })]. *)
Definition startup (w : world) (env : environment_table) : process :=
  match loadConfig w (mkState constructor env) with
  | (s, Ok _) => Running s
  | (s, Throw _) => Exited 1 s
  end.

(** The configuration snapshot [validateConfig] inspects during [startup]. *)
Definition snapshot (w : world) (env : environment_table) : object :=
  config (this (fst ((loadEnvConfig w ;; loadEnvironmentConfig w)
                       (mkState constructor env)))).

(** A snapshot the specification requires [load()] to refuse: a required key
    is missing (it reads [undefined]), or the port, as a number, lies outside
    1..65535. *)
Definition deficient (w : world) (cfg : object) : Prop :=
  (exists key, In key required /\ JS.get cfg key = VUndef)
  \/ (exists p, to_number w (JS.get cfg "port") = Some p /\ (p < 1 \/ 65535 < p)).

(** Sample worlds: no [.env]; [config/production.json] holds the given
    settings; no string converts to a number. *)
Definition world_with (settings : list (string * value)) : world :=
  mkWorld
    (fun path => if String.eqb path "config/production.json"
                 then Content "settings"
                 else ReadError "ENOENT" "ENOENT: no such file or directory")
    (fun _ => Parsed (of_object (literal settings)))
    (fun _ => None).

Definition port_70000 : world :=
  world_with [("port", VNum 70000);
              ("databaseUrl", VStr "mongodb://db.internal/app");
              ("jwtSecret", VStr "s3cret")].

Definition no_secret : world :=
  world_with [("port", VNum 8080);
              ("databaseUrl", VStr "mongodb://db.internal/app")].

Definition well_formed : world :=
  world_with [("port", VNum 8080);
              ("databaseUrl", VStr "postgres://db.internal/app");
              ("jwtSecret", VStr "s3cret")].

Definition in_production : environment_table := [("NODE_ENV", "production")].

(** The message every accessor throws before a successful load. *)
Definition not_loaded : string := "La configuración no ha sido cargada aún".

End Config.

(** ** The other route handlers of [src/controllers/mainController.js] *)

(** What the handlers read from the process: [new Date().toISOString()],
    [process.env.npm_package_version], [process.env.NODE_ENV],
    [process.version], [process.uptime()] and the three readings of
    [process.memoryUsage()]. *)
Record host : Type := mkHost
  { timestamp : string;
    npm_package_version : option string;
    host_NODE_ENV : option string;
    version : string;
    uptime : value;
    rss : value;
    heapTotal : value;
    heapUsed : value }.

(** [process.env.X || fallback]: an unset or empty variable gives the
    fallback. *)
Definition env_or (variable : option string) (fallback : string) : string :=
  match variable with
  | Some s => if String.eqb s "" then fallback else s
  | None => fallback
  end.

Section Controller.

(** As for [simulateError]: [validationResult] belongs to [express-validator],
    [createError] to [../utils/errorHandler], and [logger] only logs. *)
Variables request entry exn : Type.
Variable validationResult : request -> Result entry.
Variable createError : value -> string -> option (list entry) -> object.

(** The [catch] block the three validating handlers share. *)
Definition answer_failure (error : object) : outcome object exn :=
  Responded (or_else (get error "statusCode") (VNum 500))
    (literal [("status", VStr "error");
              ("message", or_else (get error "message")
                                  (VStr "Internal server error"))]).

(** [healthCheck(req, res)]. *)
Definition healthCheck (h : host) (req : request) : outcome object exn :=
  Responded (VNum 200)
    (literal [("status", VStr "success");
              ("message", VStr "Service is running");
              ("timestamp", VStr (timestamp h));
              ("version", VStr (env_or (npm_package_version h) "1.0.0"))]).

(** [systemInfo(req, res)]. *)
Definition systemInfo (h : host) (req : request) : outcome object exn :=
  let errors := validationResult req in
  if negb (isEmpty errors)
  then answer_failure
         (createError (VNum 400) "Validation failed" (Some (array errors)))
  else
    let systemData :=
      literal [("environment", VStr (env_or (host_NODE_ENV h) "development"));
               ("nodeVersion", VStr (version h));
               ("uptime", uptime h);
               ("memory", of_object (literal [("rss", rss h);
                                              ("heapTotal", heapTotal h);
                                              ("heapUsed", heapUsed h)]));
               ("timestamp", VStr (timestamp h))] in
    Responded (VNum 200)
      (literal [("status", VStr "success"); ("data", of_object systemData)]).

(** [welcome(req, res)]. *)
Definition welcome (h : host) (req : request) : outcome object exn :=
  let errors := validationResult req in
  if negb (isEmpty errors)
  then answer_failure
         (createError (VNum 400) "Validation failed" (Some (array errors)))
  else
    let welcomeMessage :=
      literal [("message", VStr "Welcome to the API");
               ("environment", VStr (env_or (host_NODE_ENV h) "development"));
               ("timestamp", VStr (timestamp h));
               ("documentation", VStr "/docs")] in
    Responded (VNum 200)
      (literal [("status", VStr "success"); ("data", of_object welcomeMessage)]).

End Controller.

Arguments answer_failure {exn} error.
Arguments healthCheck {request exn} h req.
Arguments systemInfo {request entry exn} validationResult createError h req.
Arguments welcome {request entry exn} validationResult createError h req.

(** A host in production, and a request that already carries a violation. *)
Definition production_host : host :=
  mkHost "2024-01-01T00:00:00.000Z" None (Some "production") "v20.11.0"
         (VNum 12) (VNum 50000000) (VNum 30000000) (VNum 20000000).

Definition rejected_request : FieldChecks.request :=
  FieldChecks.mkRequest (literal [("name", VStr "A")])
    [("name", "Name must be between 2 and 50 characters long")].

(** A plain object thrown as a failure: its [stack] is an ordinary,
    enumerable property. *)
Definition thrown_object : object :=
  literal [("message", VStr "Out of stock"); ("stack", VStr "at handler.js:3")].

(** ** Notions used to state further properties *)

(** [undefined] or [null]. *)
Definition nullish (v : value) : Prop := v = VUndef \/ v = VNull.

(** An object as [JSON.parse] and object literals build it: every own
    property enumerable, nothing inherited but [Object.prototype]. *)
Definition plain (o : object) : Prop :=
  inh o = [] /\ Forall (fun p => fst (snd p) = true) (own o).

(** No character of [s] is [c]. *)
Fixpoint free_of (c : ascii) (s : string) : bool :=
  match s with
  | EmptyString => true
  | String c' s' => negb (Ascii.eqb c' c) && free_of c s'
  end.

(** The line feed [loadEnvConfig] splits on. *)
Definition line_feed : string := String "010"%char EmptyString.

(** A line of [.env] that [loadEnvConfig]'s filter drops. *)
Definition ignorable (line : string) : bool :=
  String.eqb (Config.trim line) "" || String.prefix "#" line.

(** Sample [.env] texts and worlds. *)
Definition env_text : string :=
  "# deployment" ++ line_feed ++ "NODE_ENV=production" ++ line_feed
  ++ line_feed ++ "JWT_SECRET='abc=='".

Definition world_with_env (text : string) (settings : list (string * value))
  : Config.world :=
  Config.mkWorld
    (fun path => if String.eqb path ".env" then Config.Content text
                 else if String.eqb path "config/production.json"
                      then Config.Content "settings"
                      else Config.ReadError "ENOENT" "ENOENT: no such file or directory")
    (fun _ => Config.Parsed (of_object (literal settings)))
    (fun _ => None).

(** A world with no file at all. *)
Definition empty_disk : Config.world :=
  Config.mkWorld
    (fun _ => Config.ReadError "ENOENT" "ENOENT: no such file or directory")
    (fun _ => Config.SyntaxError "Unexpected end of JSON input")
    (fun _ => None).

(** The state and result of the two loading steps that precede validation. *)
Definition gathered (w : Config.world) (s : Config.state)
  : Config.state * Config.result unit :=
  Config.bind (Config.loadEnvConfig w) (fun _ => Config.loadEnvironmentConfig w) s.
(** ** Properties of objects *)

Lemma assoc_update_other k k' v l :
  String.eqb k' k = false -> assoc k' (update k v l) = assoc k' l.
Proof.
  intros Hk. induction l as [|[k0 [e v0]] l IH]; simpl.
  - now rewrite Hk.
  - destruct (String.eqb k k0) eqn:E; simpl.
    + apply String.eqb_eq in E. subst k0. now rewrite Hk.
    + destruct (String.eqb k' k0); [reflexivity | exact IH].
Qed.

Lemma assoc_update_same k v l :
  exists e, assoc k (update k v l) = Some (e, v).
Proof.
  induction l as [|[k0 [e v0]] l IH]; simpl.
  - rewrite String.eqb_refl. now exists true.
  - destruct (String.eqb k k0) eqn:E; simpl; rewrite E.
    + now exists e.
    + exact IH.
Qed.

Lemma get_set_other o k k' v :
  String.eqb k' k = false -> get (set o k v) k' = get o k'.
Proof.
  intros Hk. unfold get, set; simpl. now rewrite (assoc_update_other _ _ _ _ Hk).
Qed.

Lemma get_set_same o k v : get (set o k v) k = v.
Proof.
  unfold get, set; simpl. destruct (assoc_update_same k v (own o)) as [e ->].
  reflexivity.
Qed.

Lemma update_present k e v l :
  assoc k l = Some (e, v) -> update k v l = l.
Proof.
  induction l as [|[k0 [e0 v0]] l IH]; simpl; [discriminate|].
  destruct (String.eqb k k0) eqn:E.
  - intros [= -> ->]. reflexivity.
  - intros H. now rewrite (IH H).
Qed.

Lemma or_else_truthy a b : truthy b = true -> truthy (or_else a b) = true.
Proof. unfold or_else. destruct (truthy a) eqn:E; auto. Qed.

Lemma or_else_idem a b : truthy b = true -> or_else (or_else a b) b = or_else a b.
Proof.
  intros Hb. unfold or_else at 1. now rewrite (or_else_truthy a b Hb).
Qed.

(** ** Properties of [errorHandler] *)

Lemma errorHandler_record rt err : fst (errorHandler rt err) = with_defaults err.
Proof.
  unfold errorHandler, with_defaults. cbv zeta.
  destruct (if is_str _ "ValidationError" then _ else _); reflexivity.
Qed.

Lemma with_defaults_get err k :
  String.eqb k "statusCode" = false -> String.eqb k "message" = false ->
  get (with_defaults err) k = get err k.
Proof.
  intros H1 H2. unfold with_defaults. now rewrite !get_set_other.
Qed.

Lemma with_defaults_statusCode err :
  get (with_defaults err) "statusCode" = or_else (get err "statusCode") (VNum 500).
Proof.
  unfold with_defaults. rewrite get_set_other by reflexivity. apply get_set_same.
Qed.

Lemma with_defaults_message err :
  get (with_defaults err) "message"
  = or_else (get err "message") (VStr "Internal Server Error").
Proof.
  unfold with_defaults. rewrite get_set_same.
  now rewrite get_set_other by reflexivity.
Qed.

Lemma with_defaults_matches err k : matches (with_defaults err) k = matches err k.
Proof. destruct k; simpl; now rewrite with_defaults_get. Qed.

Lemma messages_strings vals msgs :
  Forall2 (fun v m => member v "message" = Some (VStr m)) vals msgs ->
  messages vals = Some (map VStr msgs).
Proof.
  induction 1 as [|v m vals msgs Hv _ IH]; simpl; [reflexivity|].
  now rewrite Hv, IH.
Qed.

Lemma join_strings sep msgs : join sep (map VStr msgs) = String.concat sep msgs.
Proof.
  unfold join. rewrite map_map. simpl. now rewrite map_id.
Qed.

Lemma validation_message_strings errors vals msgs :
  Object_values errors = Some vals ->
  Forall2 (fun v m => member v "message" = Some (VStr m)) vals msgs ->
  validation_message errors = Some (String.concat ", " msgs).
Proof.
  intros Hv Hm. unfold validation_message.
  now rewrite Hv, (messages_strings _ _ Hm), join_strings.
Qed.

(** A name is one string: two of the name rules never match together. *)
Lemma is_str_unique v a b : is_str v a = true -> is_str v b = true -> a = b.
Proof.
  destruct v; simpl; try discriminate.
  intros Ha Hb. apply String.eqb_eq in Ha, Hb. congruence.
Qed.

Ltac one_name :=
  match goal with
  | Ha : is_str ?v ?a = true, Hb : is_str ?v ?b = true |- _ =>
      discriminate (is_str_unique v a b Ha Hb)
  end.

Ltac handler_cases err :=
  unfold errorHandler; cbv zeta;
  change (set (set err "statusCode" _) "message" _) with (with_defaults err);
  rewrite ?with_defaults_get by reflexivity;
  unfold last_match, first_match, matching, rules; simpl filter;
  destruct (is_str (get err "name") "CastError") eqn:Hcast;
  destruct (is_num (get err "code") 11000) eqn:Hdup;
  destruct (is_str (get err "name") "ValidationError") eqn:Hval;
  destruct (is_str (get err "name") "JsonWebTokenError") eqn:Hjwt;
  destruct (is_str (get err "name") "TokenExpiredError") eqn:Hexp;
  simpl.

Lemma errorHandler_classified rt err k code message :
  last_match err = Some k ->
  entry err k = Some (code, message) ->
  snd (errorHandler rt err)
  = Returned (mkResponse (if development rt then Some (with_defaults err) else None)
                         (VNum code)
                         (classified_body rt code message)).
Proof.
  handler_cases err; intros [= <-]; simpl.
  all: try (intros [= <- <-]; reflexivity).
  all: try (exfalso; one_name).
  all: destruct (validation_message (get err "errors")); simpl;
    intros [= <- <-]; reflexivity.
Qed.

Lemma errorHandler_unclassified rt err :
  matching err = [] ->
  snd (errorHandler rt err)
  = Returned (mkResponse (if development rt then Some (with_defaults err) else None)
                         (get (passthrough err) "statusCode")
                         (literal
                            [("status", get (passthrough err) "status");
                             ("error", of_object (passthrough err));
                             ("message", get (passthrough err) "message");
                             ("stack", if development rt
                                       then get (passthrough err) "stack"
                                       else of_object (literal []))])).
Proof.
  handler_cases err; intros H; try discriminate H. reflexivity.
Qed.

Lemma passthrough_statusCode err :
  get (passthrough err) "statusCode" = or_else (get err "statusCode") (VNum 500).
Proof.
  unfold passthrough. rewrite get_set_same. apply with_defaults_statusCode.
Qed.

Lemma passthrough_message err :
  get (passthrough err) "message"
  = or_else (get err "message") (VStr "Internal Server Error").
Proof.
  unfold passthrough. rewrite get_set_other by reflexivity.
  rewrite get_set_same. apply with_defaults_message.
Qed.


Lemma unclassified_response rt err :
  matching err = [] ->
  exists r, written (errorHandler rt err) = Some r /\
    statusCode r = or_else (get err "statusCode") (VNum 500) /\
    get (body r) "message"
    = or_else (get err "message") (VStr "Internal Server Error") /\
    get (body r) "status" = get (spread (with_defaults err)) "status".
Proof.
  intros Hnone. unfold written. rewrite (errorHandler_unclassified rt err Hnone).
  eexists. split; [reflexivity|]. simpl.
  rewrite passthrough_statusCode, passthrough_message.
  repeat split. unfold passthrough. now rewrite !get_set_other.
Qed.

(** Handling is idempotent on the record: the defaults, once filled in, stay. *)
Lemma set_present o k v : 
  (exists e, assoc k (own o) = Some (e, v)) -> set o k v = o.
Proof.
  intros [e H]. destruct o as [ow ih]. unfold set; simpl in *.
  now rewrite (update_present _ _ _ _ H).
Qed.

Lemma with_defaults_idem err : with_defaults (with_defaults err) = with_defaults err.
Proof.
  set (d := with_defaults err).
  assert (Hs : set d "statusCode" (or_else (get d "statusCode") (VNum 500)) = d).
  { unfold d at 2. rewrite with_defaults_statusCode.
    rewrite or_else_idem by reflexivity.
    apply set_present. unfold d, with_defaults. simpl.
    rewrite assoc_update_other by reflexivity. apply assoc_update_same. }
  assert (Hm : get d "message"
               = or_else (get err "message") (VStr "Internal Server Error"))
    by apply with_defaults_message.
  assert (Ho : exists e, assoc "message" (own d) = Some (e, get d "message")).
  { unfold d, with_defaults. rewrite get_set_same. simpl. apply assoc_update_same. }
  unfold with_defaults at 1. fold d. rewrite Hs.
  replace (or_else (get d "message") (VStr "Internal Server Error"))
    with (get d "message").
  - apply set_present, Ho.
  - rewrite Hm. symmetry. now apply or_else_idem.
Qed.

Lemma errorHandler_replay rt err :
  errorHandler rt (with_defaults err) = errorHandler rt err.
Proof.
  unfold errorHandler; cbv zeta.
  change (set (set err "statusCode" _) "message" _) with (with_defaults err).
  change (set (set (with_defaults err) "statusCode" _) "message" _)
    with (with_defaults (with_defaults err)).
  now rewrite with_defaults_idem.
Qed.

(** The handler reads the runtime through [NODE_ENV] and the captured trace only. *)
Lemma errorHandler_ext rt1 rt2 err :
  NODE_ENV rt1 = NODE_ENV rt2 ->
  (forall m, captureStackTrace rt1 m = captureStackTrace rt2 m) ->
  errorHandler rt1 err = errorHandler rt2 err.
Proof.
  intros He Hc. unfold errorHandler, AppError, development; cbv zeta.
  rewrite He.
  destruct (validation_message _); rewrite ?Hc; reflexivity.
Qed.

(** *** The scenarios of section 8 *)

Example malformed_credential_scenario :
  responds (errorHandler production malformed_token) 401 "Invalid token" "fail".
Proof. eexists. repeat split; reflexivity. Qed.

Example unclassified_fault_scenario :
  option_map statusCode (written (errorHandler production (bare_error "Error")))
  = Some (VNum 500) /\
  option_map (fun r => get (body r) "message")
             (written (errorHandler production (bare_error "Error")))
  = Some (VStr "Internal Server Error").
Proof. split; reflexivity. Qed.

(** ** Properties of [validate] and [simulateError] *)

Section ValidatorFacts.

Context {request validation entry exn : Type}.
Variable run : validation -> request -> request + exn.
Variable validationResult : request -> Result entry.
Variable completion : list validation -> list validation.

Lemma validate_answers validations req req' :
  run_all run completion validations req = (req', None) ->
  isEmpty (validationResult req') = false ->
  validate run validationResult completion validations req
  = (req', Responded (VNum 422)
             (mkRejection false "Validation failed" (array (validationResult req')))).
Proof.
  intros Hrun Hempty. unfold validate. now rewrite Hrun, Hempty.
Qed.

Lemma validate_proceeds validations req req' :
  run_all run completion validations req = (req', None) ->
  isEmpty (validationResult req') = true ->
  validate run validationResult completion validations req = (req', Next).
Proof.
  intros Hrun Hempty. unfold validate. now rewrite Hrun, Hempty.
Qed.

Lemma validate_diverts validations req req' error :
  run_all run completion validations req = (req', Some error) ->
  validate run validationResult completion validations req = (req', NextErr error).
Proof.
  intros Hrun. unfold validate. now rewrite Hrun.
Qed.

Lemma simulateError_answers createError req :
  exists code body,
    simulateError (exn := exn) validationResult createError req = Responded code body
    /\ get body "status" = VStr "error".
Proof.
  unfold simulateError. eexists _, _. split; reflexivity.
Qed.

End ValidatorFacts.

Module FieldChecksFacts.
Import FieldChecks.

Lemma settle_records rules : forall req,
  settle run rules req
  = (mkRequest (payload req)
               (recorded req ++ map reported (filter (fails req) rules)),
     None).
Proof.
  induction rules as [|r rules IH]; intros [p vs]; simpl.
  - now rewrite app_nil_r.
  - destruct (fails (mkRequest p vs) r) eqn:Hf; rewrite IH; simpl.
    + rewrite <- app_assoc. reflexivity.
    + reflexivity.
Qed.

Lemma runRules_reports completion rules req :
  recorded req = [] ->
  runRules completion rules req
  = map reported (filter (fails req) (completion rules)).
Proof.
  intros Hfresh. unfold runRules, validate, run_all.
  rewrite settle_records, Hfresh.
  simpl. destruct (map reported (filter (fails req) (completion rules))); reflexivity.
Qed.

Lemma filter_rearranged (A : Type) (f : A -> bool) (l l' : list A) :
  Permutation l l' -> Permutation (filter f l) (filter f l').
Proof.
  induction 1 as [|x l l' _ IH|x y l|l l' l'' _ IH1 _ IH2]; simpl.
  - constructor.
  - destruct (f x); [now constructor | exact IH].
  - destruct (f x), (f y); try reflexivity. constructor.
  - now transitivity (filter f l').
Qed.

Example short_name_scenario :
  runRules as_declared [name_length] short_name_request
  = [("name", "Name must be between 2 and 50 characters long")].
Proof. reflexivity. Qed.

End FieldChecksFacts.

(** ** Properties of [ConfigManager] *)

Module ConfigFacts.
Import Config.
Local Open Scope config_scope.

Lemma loadEnvConfig_this w s : this (fst (loadEnvConfig w s)) = this s.
Proof.
  unfold loadEnvConfig.
  destruct (readFile w ".env") as [text|code message]; [reflexivity|].
  destruct (negb _); reflexivity.
Qed.

Lemma loadEnvironmentConfig_isLoaded w s :
  isLoaded (this (fst (loadEnvironmentConfig w s))) = isLoaded (this s).
Proof.
  unfold loadEnvironmentConfig, bind, read_state.
  destruct (readFile w _) as [text|code message].
  - destruct (JSON_parse w text); reflexivity.
  - destruct (String.eqb code "ENOENT") eqn:E.
    + apply String.eqb_eq in E. subst code. reflexivity.
    + assert (H : forall A (a b : A),
                 match code with "ENOENT" => a | _ => b end = b).
      { intros A a b. apply String.eqb_neq in E.
        repeat match goal with
               | |- context [match ?x with _ => _ end] => destruct x; try reflexivity
               end; congruence. }
      simpl. rewrite H. reflexivity.
Qed.

Lemma validateConfig_state w s : fst (validateConfig w s) = s.
Proof.
  unfold validateConfig, bind, read_state.
  repeat match goal with
         | |- context [if ?b then _ else _] => destruct b
         | |- context [match startsWith ?v ?p with _ => _ end] =>
             destruct (startsWith v p)
         end; reflexivity.
Qed.

Lemma falsy_port_is_missing cfg :
  truthy (JS.get cfg "port") = false ->
  (0 <? List.length (filter (fun key => negb (truthy (JS.get cfg key))) required))%nat
  = true.
Proof.
  intros Hfalsy. unfold required. simpl filter. now rewrite Hfalsy.
Qed.

Lemma validateConfig_rejects w s :
  deficient w (config (this s)) ->
  exists message, validateConfig w s = (s, Throw message).
Proof.
  intros Hbad. unfold validateConfig, bind, read_state.
  set (cfg := config (this s)) in *.
  destruct (0 <? List.length _)%nat eqn:Hmissing; [eexists; reflexivity|].
  destruct Hbad as [[key [Hin Hundef]] | [p [Hport Hrange]]].
  - exfalso. apply Nat.ltb_ge in Hmissing.
    assert (Hm : In key (filter (fun key => negb (truthy (JS.get cfg key))) required)).
    { apply filter_In. split; [exact Hin|]. now rewrite Hundef. }
    destruct (filter _ required); [contradiction | simpl in Hmissing; lia].
  - destruct (truthy (JS.get cfg "port")) eqn:Htruthy.
    + unfold less, greater. rewrite Hport. simpl.
      replace ((p <? 1) || (65535 <? p)) with true by lia.
      eexists; reflexivity.
    + rewrite (falsy_port_is_missing cfg Htruthy) in Hmissing. discriminate.
Qed.

Lemma loadConfig_isLoaded w s s' r :
  loadConfig w s = (s', r) ->
  isLoaded (this s) = false ->
  (isLoaded (this s') = true <-> r = Ok tt).
Proof.
  unfold loadConfig, try_catch, bind, read_state, write_this, throw.
  pose proof (loadEnvConfig_this w s) as H1.
  destruct (loadEnvConfig w s) as [s1 [[]|m1]]; simpl in H1.
  - pose proof (loadEnvironmentConfig_isLoaded w s1) as H2.
    destruct (loadEnvironmentConfig w s1) as [s2 [[]|m2]]; simpl in H2.
    + pose proof (validateConfig_state w s2) as H3.
      destruct (validateConfig w s2) as [s3 [[]|m3]]; simpl in H3; subst s3.
      * intros [= <- <-] _. simpl. tauto.
      * intros [= <- <-] Hs. simpl. rewrite H2, H1, Hs. split; discriminate.
    + intros [= <- <-] Hs. rewrite H2, H1, Hs. split; discriminate.
  - intros [= <- <-] Hs. rewrite H1, Hs. split; discriminate.
Qed.

Lemma startup_refuses w env :
  deficient w (snapshot w env) ->
  exists s, startup w env = Exited 1 s /\ isLoaded (this s) = false.
Proof.
  intros Hbad. unfold startup.
  destruct (loadConfig w (mkState constructor env)) as [s r] eqn:Hload.
  pose proof (loadConfig_isLoaded _ _ _ _ Hload eq_refl) as Hiff.
  revert Hload Hbad. unfold snapshot, loadConfig, try_catch, bind, read_state,
    write_this, throw.
  destruct (loadEnvConfig w _) as [s1 [[]|m1]].
  - destruct (loadEnvironmentConfig w s1) as [s2 [[]|m2]]; simpl.
    + intros Hload Hbad.
      destruct (validateConfig_rejects w s2 Hbad) as [m Hv].
      rewrite Hv in Hload. injection Hload as <- <-.
      eexists; split; [reflexivity|].
      destruct (isLoaded (this s2)); [|reflexivity].
      destruct Hiff as [Hiff _]. discriminate (Hiff eq_refl).
    + intros [= <- <-] _. eexists; split; [reflexivity|].
      destruct (isLoaded (this s2)); [|reflexivity].
      destruct Hiff as [Hiff _]. discriminate (Hiff eq_refl).
  - intros [= <- <-] _. eexists; split; [reflexivity|].
    destruct (isLoaded (this s1)); [|reflexivity].
    destruct Hiff as [Hiff _]. discriminate (Hiff eq_refl).
Qed.

Lemma get_unloaded key defaultValue s :
  isLoaded (this s) = false ->
  Config.get key defaultValue s = (s, Throw not_loaded).
Proof.
  intros H. unfold Config.get, bind, read_state, throw. now rewrite H.
Qed.

Lemma getAll_unloaded s :
  isLoaded (this s) = false ->
  getAll s = (s, Throw not_loaded).
Proof.
  intros H. unfold getAll, bind, read_state, throw. now rewrite H.
Qed.

Lemma grouped_unloaded s :
  isLoaded (this s) = false ->
  getDatabaseConfig s = (s, Throw not_loaded) /\
  getSecurityConfig s = (s, Throw not_loaded) /\
  getServerConfig s = (s, Throw not_loaded).
Proof.
  intros H. unfold getDatabaseConfig, getSecurityConfig, getServerConfig, bind.
  now rewrite !(get_unloaded _ _ s H).
Qed.

Example port_70000_scenario :
  snd (loadConfig port_70000 (mkState constructor in_production))
  = Throw "Error de configuración: Puerto inválido. Debe estar entre 1 y 65535"
  /\ exists s, startup port_70000 in_production = Exited 1 s.
Proof. split; [reflexivity | eexists; reflexivity]. Qed.

Example missing_secret_scenario :
  snd (loadConfig no_secret (mkState constructor in_production))
  = Throw "Error de configuración: Configuración incompleta. Faltan: jwtSecret"
  /\ exists s, startup no_secret in_production = Exited 1 s.
Proof. split; [reflexivity | eexists; reflexivity]. Qed.

Example well_formed_scenario :
  exists s, startup well_formed in_production = Running s
            /\ snd (getServerConfig s)
               = Ok (literal [("port", VNum 8080); ("host", VStr "localhost");
                              ("sslEnabled", VBool false)]).
Proof. eexists. split; reflexivity. Qed.

End ConfigFacts.

(** ** The claims of the specification *)

(** *** C1 *)




(** *** C2 *)

(** C2, as stated, fails: a cast error that also carries the duplicate-key code
    matches rule 1 first, yet is answered with rule 2's message; a malformed
    credential carrying that code matches rule 2 first, yet is answered 401. *)
Lemma first_match_does_not_win :
  (first_match cast_and_duplicate = Some CastMismatch /\
   entry cast_and_duplicate CastMismatch = Some (400, "Invalid ID format") /\
   ~ responds (errorHandler production cast_and_duplicate)
              400 "Invalid ID format" "fail" /\
   responds (errorHandler production cast_and_duplicate)
            400 "Duplicate field value entered" "fail") /\
  (first_match token_and_duplicate = Some DuplicateKey /\
   entry token_and_duplicate DuplicateKey = Some (400, "Duplicate field value entered") /\
   ~ responds (errorHandler production token_and_duplicate)
              400 "Duplicate field value entered" "fail" /\
   responds (errorHandler production token_and_duplicate) 401 "Invalid token" "fail").
Proof.
  split; (split; [reflexivity|]; split; [reflexivity|]; split);
    try (eexists; repeat split; reflexivity);
    intros [r [Hw [_ [Hm _]]]]; vm_compute in Hw; injection Hw as <-;
    discriminate Hm.
Qed.

(** C2, amended: the five rules are tried in the order of section 4.1 and each
    one that matches replaces the result of the earlier ones, so the response
    carries the status code and message of the last matching rule. *)
Theorem last_match_wins rt err k code text :
  last_match err = Some k ->
  entry err k = Some (code, text) ->
  responds (errorHandler rt err) code text "fail".
Proof.
  intros Hlast Hentry.
  pose proof (errorHandler_classified rt err k code text Hlast Hentry) as Hc.
  unfold responds, written. rewrite Hc. eexists. repeat split; reflexivity.
Qed.

Lemma last_match_wins_witness :
  last_match cast_and_duplicate = Some DuplicateKey /\
  entry cast_and_duplicate DuplicateKey = Some (400, "Duplicate field value entered") /\
  responds (errorHandler dev cast_and_duplicate) 400 "Duplicate field value entered" "fail".
Proof.
  split; [reflexivity|]. split; [reflexivity|].
  exact (last_match_wins dev cast_and_duplicate DuplicateKey 400
           "Duplicate field value entered" eq_refl eq_refl).
Defined.

(** *** C3 *)




(** *** C4 *)

(** C4, on an [Error] raised without message or status code: the handler
    answers 500 with ["Internal Server Error"], but [status] is [undefined]
    and the serialised body has no [status] entry. *)
Theorem unclassified_status_undefined :
  matching (bare_error "Error\n    at service.js:4") = [] /\
  option_map statusCode
    (written (errorHandler production (bare_error "Error\n    at service.js:4")))
  = Some (VNum 500) /\
  option_map (fun r => get (body r) "message")
    (written (errorHandler production (bare_error "Error\n    at service.js:4")))
  = Some (VStr "Internal Server Error") /\
  option_map (fun r => get (body r) "status")
    (written (errorHandler production (bare_error "Error\n    at service.js:4")))
  = Some VUndef /\
  option_map wire
    (written (errorHandler production (bare_error "Error\n    at service.js:4")))
  = Some (Some (JObject
       [("error", JObject [("statusCode", JNum 500);
                           ("message", JStr "Internal Server Error")]);
        ("message", JStr "Internal Server Error");
        ("stack", JObject [])])).
Proof. repeat split; reflexivity. Qed.

(** *** C5 *)

(** C5, as stated, fails: with a non-empty violation list [validate] writes
    the 422 response itself and hands nothing to the classifier, and
    [simulateError] answers its own failure. *)
Lemma validator_answers_itself :
  FieldChecks.runRules as_declared [FieldChecks.name_length] short_name_request
  = [("name", "Name must be between 2 and 50 characters long")] /\
  snd (validate FieldChecks.run FieldChecks.validationResult as_declared
         [FieldChecks.name_length] short_name_request)
  = Responded (VNum 422)
      (mkRejection false "Validation failed"
         [("name", "Name must be between 2 and 50 characters long")]) /\
  simulateError (exn := unit) FieldChecks.validationResult createError_plain
    short_name_request
  = Responded (VNum 500)
      (literal [("status", VStr "error");
                ("message", VStr "Simulated server error for testing purposes")]).
Proof. repeat split; reflexivity. Qed.

(** C5, amended: when the aggregate check reports violations, [validate]
    itself answers 422 with ["Validation failed"] and the violation list; it
    calls [next()] when there is none, and reaches the classifier through
    [next(error)] only when running a rule rejects.  [simulateError] always
    writes its own response, with status ["error"]. *)
Theorem failures_answered_in_place
    {request validation entry exn : Type}
    (run : validation -> request -> request + exn)
    (validationResult : request -> Result entry)
    (createError : value -> string -> option (list entry) -> object)
    (completion : list validation -> list validation)
    (validations : list validation) (req : request) :
  (forall req',
      run_all run completion validations req = (req', None) ->
      snd (validate run validationResult completion validations req)
      = if isEmpty (validationResult req') then Next
        else Responded (VNum 422)
               (mkRejection false "Validation failed" (array (validationResult req')))) /\
  (forall req' error,
      run_all run completion validations req = (req', Some error) ->
      snd (validate run validationResult completion validations req) = NextErr error) /\
  (exists code body,
      simulateError (exn := exn) validationResult createError req = Responded code body
      /\ get body "status" = VStr "error").
Proof.
  repeat split.
  - intros req' Hrun. destruct (isEmpty (validationResult req')) eqn:He.
    + now rewrite (validate_proceeds _ _ _ _ _ _ Hrun He).
    + now rewrite (validate_answers _ _ _ _ _ _ Hrun He).
  - intros req' error Hrun. now rewrite (validate_diverts _ _ _ _ _ _ _ Hrun).
  - apply simulateError_answers.
Qed.

Lemma failures_answered_in_place_witness :
  snd (validate FieldChecks.run FieldChecks.validationResult as_declared
         [FieldChecks.name_length; FieldChecks.password_required] short_name_request)
  = Responded (VNum 422)
      (mkRejection false "Validation failed"
         [("name", "Name must be between 2 and 50 characters long");
          ("password", "Password is required")]).
Proof.
  destruct (failures_answered_in_place FieldChecks.run FieldChecks.validationResult
              createError_plain as_declared
              [FieldChecks.name_length; FieldChecks.password_required]
              short_name_request) as [Hanswer _].
  exact (Hanswer _ eq_refl).
Defined.

(** *** C6 *)

(** C6, as stated, fails: when the rule declared second completes first, its
    violation comes first in the list, which is then not in declaration
    order. *)
Lemma violations_follow_completion_order :
  Permutation [FieldChecks.name_length; FieldChecks.password_required]
              (rev [FieldChecks.name_length; FieldChecks.password_required]) /\
  FieldChecks.runRules (@rev FieldChecks.rule)
    [FieldChecks.name_length; FieldChecks.password_required] short_name_request
  = [("password", "Password is required");
     ("name", "Name must be between 2 and 50 characters long")] /\
  map FieldChecks.reported
      (filter (FieldChecks.fails short_name_request)
              [FieldChecks.name_length; FieldChecks.password_required])
  = [("name", "Name must be between 2 and 50 characters long");
     ("password", "Password is required")] /\
  FieldChecks.runRules (@rev FieldChecks.rule)
    [FieldChecks.name_length; FieldChecks.password_required] short_name_request
  <> map FieldChecks.reported
       (filter (FieldChecks.fails short_name_request)
               [FieldChecks.name_length; FieldChecks.password_required]).
Proof.
  split; [exact (perm_swap _ _ [])|].
  split; [reflexivity|]. split; [reflexivity|]. discriminate.
Qed.

(** C6, amended: on a request with nothing recorded yet, whatever the order
    in which the rules complete, the validator runs every rule: the violation
    list holds the violation of each failing rule once, so as many entries as
    rules fail, in the order in which the rules completed; with no failing
    rule it is empty and control passes to [next()]; and it is non-empty
    exactly when the aggregate check reports failure, in which case the
    validator answers 422 with that list. *)
Theorem validator_reports_every_failure
    (completion : list FieldChecks.rule -> list FieldChecks.rule)
    (rules : list FieldChecks.rule) (req : FieldChecks.request) :
  Permutation rules (completion rules) ->
  FieldChecks.recorded req = [] ->
  let failing := filter (FieldChecks.fails req) rules in
  let after :=
    validate FieldChecks.run FieldChecks.validationResult completion rules req in
  FieldChecks.runRules completion rules req
  = map FieldChecks.reported (filter (FieldChecks.fails req) (completion rules)) /\
  Permutation (FieldChecks.runRules completion rules req)
              (map FieldChecks.reported failing) /\
  List.length (FieldChecks.runRules completion rules req) = List.length failing /\
  (failing = [] ->
     FieldChecks.runRules completion rules req = [] /\ snd after = Next) /\
  (FieldChecks.runRules completion rules req <> []
   <-> isEmpty (FieldChecks.validationResult (fst after)) = false) /\
  (isEmpty (FieldChecks.validationResult (fst after)) = false
   <-> snd after = Responded (VNum 422)
         (mkRejection false "Validation failed"
                      (FieldChecks.runRules completion rules req))).
Proof.
  intros Hperm Hfresh failing after.
  pose proof (FieldChecksFacts.runRules_reports completion rules req Hfresh) as Hlist.
  set (listed := map FieldChecks.reported
                     (filter (FieldChecks.fails req) (completion rules))) in *.
  assert (Hsame : Permutation listed (map FieldChecks.reported failing)).
  { apply Permutation_map, FieldChecksFacts.filter_rearranged.
    now apply Permutation_sym. }
  assert (Hafter : after
            = (FieldChecks.mkRequest (FieldChecks.payload req) listed,
               if match listed with [] => true | _ => false end
               then Next
               else Responded (VNum 422)
                      (mkRejection false "Validation failed" listed))).
  { unfold after, validate, run_all.
    rewrite FieldChecksFacts.settle_records, Hfresh.
    simpl. fold listed. destruct listed; reflexivity. }
  rewrite Hlist, Hafter. cbn [fst snd].
  split; [reflexivity|]. split; [exact Hsame|].
  split; [now rewrite (Permutation_length Hsame), length_map|].
  split.
  - intros Hnone. rewrite Hnone in Hsame. simpl in Hsame.
    apply Permutation_sym, Permutation_nil in Hsame. rewrite Hsame.
    split; reflexivity.
  - destruct listed; simpl; split; split;
      try congruence; try discriminate; reflexivity.
Qed.

Lemma validator_reports_every_failure_witness :
  Permutation [FieldChecks.name_length; FieldChecks.password_required]
              (rev [FieldChecks.name_length; FieldChecks.password_required]) /\
  FieldChecks.recorded short_name_request = [] /\
  Permutation
    (FieldChecks.runRules (@rev FieldChecks.rule)
       [FieldChecks.name_length; FieldChecks.password_required] short_name_request)
    [("name", "Name must be between 2 and 50 characters long");
     ("password", "Password is required")].
Proof.
  split; [exact (perm_swap _ _ [])|]. split; [reflexivity|].
  exact (proj1 (proj2 (validator_reports_every_failure (@rev FieldChecks.rule)
                         [FieldChecks.name_length; FieldChecks.password_required]
                         short_name_request (perm_swap _ _ []) eq_refl))).
Defined.

(** *** C7 *)

(** C7: when the snapshot [validateConfig] inspects lacks one of [port],
    [databaseUrl], [jwtSecret], or its port is a number outside 1..65535, the
    module body ends in [process.exit(1)] and the manager is never marked
    loaded. *)
Theorem deficient_configuration_is_fatal (w : Config.world)
    (env : Config.environment_table) :
  Config.deficient w (Config.snapshot w env) ->
  exists s, Config.startup w env = Config.Exited 1 s
            /\ Config.isLoaded (Config.this s) = false.
Proof.
  apply ConfigFacts.startup_refuses.
Qed.

Lemma deficient_configuration_is_fatal_witness :
  Config.deficient Config.port_70000 (Config.snapshot Config.port_70000 Config.in_production) /\
  exists s, Config.startup Config.port_70000 Config.in_production = Config.Exited 1 s
            /\ Config.isLoaded (Config.this s) = false.
Proof.
  assert (H : Config.deficient Config.port_70000
                (Config.snapshot Config.port_70000 Config.in_production)).
  { right. exists 70000. split; [reflexivity | lia]. }
  split; [exact H|].
  exact (deficient_configuration_is_fatal Config.port_70000 Config.in_production H).
Defined.

(** *** C8 *)

(** C8, as stated, fails: handling an [Error] raised without message or status
    code leaves [statusCode] 500 and the default message on the record. *)
Lemma handler_fills_in_defaults :
  get (bare_error "Error\n    at service.js:4") "statusCode" = VUndef /\
  get (fst (errorHandler production (bare_error "Error\n    at service.js:4")))
      "statusCode" = VNum 500 /\
  get (bare_error "Error\n    at service.js:4") "message" = VStr "" /\
  get (fst (errorHandler production (bare_error "Error\n    at service.js:4")))
      "message" = VStr "Internal Server Error" /\
  fst (errorHandler production (bare_error "Error\n    at service.js:4"))
  <> bare_error "Error\n    at service.js:4".
Proof. repeat split; try reflexivity. discriminate. Qed.

(** C8, amended: the handler assigns [statusCode] and [message] on the record,
    each keeping its value when truthy and otherwise becoming 500 and
    ["Internal Server Error"]; every other attribute reads as before, and a
    record whose own [statusCode] and [message] are truthy is left exactly as
    it was. *)
Theorem handler_leaves_other_attributes rt err :
  (forall k, k <> "statusCode" -> k <> "message" ->
             get (fst (errorHandler rt err)) k = get err k) /\
  get (fst (errorHandler rt err)) "statusCode"
  = or_else (get err "statusCode") (VNum 500) /\
  get (fst (errorHandler rt err)) "message"
  = or_else (get err "message") (VStr "Internal Server Error") /\
  (forall e1 v1 e2 v2,
      assoc "statusCode" (own err) = Some (e1, v1) -> truthy v1 = true ->
      assoc "message" (own err) = Some (e2, v2) -> truthy v2 = true ->
      fst (errorHandler rt err) = err).
Proof.
  rewrite errorHandler_record. repeat split.
  - intros k H1 H2. apply with_defaults_get; now apply String.eqb_neq.
  - apply with_defaults_statusCode.
  - apply with_defaults_message.
  - intros e1 v1 e2 v2 Hs Ht Hm Hu. unfold with_defaults.
    assert (Gs : get err "statusCode" = v1) by (unfold get; now rewrite Hs).
    assert (Gm : get err "message" = v2) by (unfold get; now rewrite Hm).
    assert (O1 : or_else v1 (VNum 500) = v1) by (unfold or_else; now rewrite Ht).
    assert (O2 : or_else v2 (VStr "Internal Server Error") = v2)
      by (unfold or_else; now rewrite Hu).
    rewrite Gs, O1.
    replace (set err "statusCode" v1) with err
      by (symmetry; apply set_present; eauto).
    rewrite Gm, O2. apply set_present; eauto.
Qed.

Lemma handler_leaves_other_attributes_witness :
  get (fst (errorHandler production cast_and_duplicate)) "code" = VNum 11000 /\
  fst (errorHandler production (AppError production (VStr "Not found") (VNum 404) VUndef))
  = AppError production (VStr "Not found") (VNum 404) VUndef.
Proof.
  destruct (handler_leaves_other_attributes production cast_and_duplicate)
    as [Hother _].
  destruct (handler_leaves_other_attributes production
              (AppError production (VStr "Not found") (VNum 404) VUndef))
    as [_ [_ [_ Hsame]]].
  split.
  - rewrite (Hother "code"); [reflexivity | discriminate | discriminate].
  - exact (Hsame true (VNum 404) false (VStr "Not found")
             eq_refl eq_refl eq_refl eq_refl).
Defined.

(** *** C9 *)

(** C9: two runs of the handler under the same [NODE_ENV] agree.  With the
    same captured traces they write the same response for the same record, and
    also when the second run receives the record as the first one left it; in
    a build that is not a development build the serialised bodies agree
    whatever the traces are. *)
Theorem classification_deterministic rt1 rt2 err :
  NODE_ENV rt1 = NODE_ENV rt2 ->
  ((forall m, captureStackTrace rt1 m = captureStackTrace rt2 m) ->
     snd (errorHandler rt2 err) = snd (errorHandler rt1 err) /\
     snd (errorHandler rt2 (fst (errorHandler rt1 err))) = snd (errorHandler rt1 err)) /\
  (development rt1 = false ->
     option_map wire (written (errorHandler rt2 err))
     = option_map wire (written (errorHandler rt1 err)) /\
     option_map wire (written (errorHandler rt2 (fst (errorHandler rt1 err))))
     = option_map wire (written (errorHandler rt1 err))).
Proof.
  intros Henv. split.
  - intros Htrace. rewrite errorHandler_record, errorHandler_replay.
    now rewrite (errorHandler_ext rt1 rt2 err Henv Htrace).
  - intros Hdev1.
    assert (Hdev2 : development rt2 = false)
      by (unfold development in *; now rewrite <- Henv).
    rewrite errorHandler_record, errorHandler_replay.
    assert (Hsame : option_map wire (written (errorHandler rt2 err))
                    = option_map wire (written (errorHandler rt1 err))).
    { unfold written. handler_cases err; rewrite ?Hdev1, ?Hdev2;
        try destruct (validation_message (get err "errors")); reflexivity. }
    split; exact Hsame.
Qed.

Lemma classification_deterministic_witness :
  snd (errorHandler dev (fst (errorHandler dev validation_failure)))
  = snd (errorHandler dev validation_failure) /\
  option_map wire (written (errorHandler production_elsewhere cast_and_duplicate))
  = option_map wire (written (errorHandler production cast_and_duplicate)).
Proof.
  split.
  - exact (proj2 (proj1 (classification_deterministic dev dev validation_failure eq_refl)
                    (fun _ => eq_refl))).
  - exact (proj1 (proj2 (classification_deterministic production
                           production_elsewhere
                           cast_and_duplicate eq_refl)
                    eq_refl)).
Defined.

(** *** C10 *)

(** C10: while the manager is not marked loaded, [get], [getAll] and the three
    grouped accessors throw; it is unmarked at construction and throughout a
    load, and marked after [loadConfig] exactly when the load succeeded; so an
    accessor that returns a value runs after a successful load. *)
Theorem accessors_require_load :
  (forall s, Config.isLoaded (Config.this s) = false ->
     (forall key defaultValue,
         Config.get key defaultValue s = (s, Config.Throw Config.not_loaded)) /\
     Config.getAll s = (s, Config.Throw Config.not_loaded) /\
     Config.getDatabaseConfig s = (s, Config.Throw Config.not_loaded) /\
     Config.getSecurityConfig s = (s, Config.Throw Config.not_loaded) /\
     Config.getServerConfig s = (s, Config.Throw Config.not_loaded)) /\
  (forall w env,
     Config.isLoaded (Config.this (Config.mkState Config.constructor env)) = false /\
     Config.isLoaded (Config.this
        (fst (Config.loadEnvConfig w (Config.mkState Config.constructor env)))) = false /\
     Config.isLoaded (Config.this
        (fst (Config.bind (Config.loadEnvConfig w)
                (fun _ => Config.loadEnvironmentConfig w)
                (Config.mkState Config.constructor env)))) = false) /\
  (forall w env s r,
     Config.loadConfig w (Config.mkState Config.constructor env) = (s, r) ->
     (Config.isLoaded (Config.this s) = true <-> r = Config.Ok tt)) /\
  (forall s,
     (exists key defaultValue s' v,
         Config.get key defaultValue s = (s', Config.Ok v)) \/
     (exists s' all, Config.getAll s = (s', Config.Ok all)) \/
     (exists s' group, Config.getDatabaseConfig s = (s', Config.Ok group)) \/
     (exists s' group, Config.getSecurityConfig s = (s', Config.Ok group)) \/
     (exists s' group, Config.getServerConfig s = (s', Config.Ok group)) ->
     Config.isLoaded (Config.this s) = true).
Proof.
  split; [|split; [|split]].
  - intros s Hs. split; [|split].
    + intros key defaultValue. now apply ConfigFacts.get_unloaded.
    + now apply ConfigFacts.getAll_unloaded.
    + now apply ConfigFacts.grouped_unloaded.
  - intros w env. split; [reflexivity|]. split.
    + now rewrite ConfigFacts.loadEnvConfig_this.
    + unfold Config.bind.
      pose proof (ConfigFacts.loadEnvConfig_this w
                    (Config.mkState Config.constructor env)) as H1.
      destruct (Config.loadEnvConfig w _) as [s1 [[]|m1]]; simpl in *.
      * now rewrite ConfigFacts.loadEnvironmentConfig_isLoaded, H1.
      * now rewrite H1.
  - intros w env s r Hload.
    exact (ConfigFacts.loadConfig_isLoaded w _ s r Hload eq_refl).
  - intros s Hreturns.
    destruct (Config.isLoaded (Config.this s)) eqn:Hs; [reflexivity | exfalso].
    destruct (ConfigFacts.grouped_unloaded s Hs) as [Hd [Hc Hv]].
    destruct Hreturns as [[key [d [s' [v H]]]] | [[s' [o H]] | [[s' [o H]]
                         | [[s' [o H]] | [s' [o H]]]]]].
    + rewrite (ConfigFacts.get_unloaded key d s Hs) in H. discriminate.
    + rewrite (ConfigFacts.getAll_unloaded s Hs) in H. discriminate.
    + rewrite Hd in H. discriminate.
    + rewrite Hc in H. discriminate.
    + rewrite Hv in H. discriminate.
Qed.

Lemma accessors_require_load_witness :
  Config.get "port" (VNum 3000) (Config.mkState Config.constructor Config.in_production)
  = (Config.mkState Config.constructor Config.in_production,
     Config.Throw Config.not_loaded) /\
  Config.isLoaded (Config.this
    (fst (Config.loadConfig Config.well_formed
            (Config.mkState Config.constructor Config.in_production)))) = true.
Proof.
  destruct accessors_require_load as [Hthrow [_ [Hload _]]].
  split.
  - exact (proj1 (Hthrow (Config.mkState Config.constructor Config.in_production) eq_refl)
             "port" (VNum 3000)).
  - exact (proj2 (Hload Config.well_formed Config.in_production _ _ eq_refl) eq_refl).
Defined.

(** ** Further properties of the error handler *)

(** *** Helper facts *)

Lemma prefix4_table :
  forallb (fun k => Bool.eqb (String.prefix "4" (to_string (VNum (Z.of_nat k))))
                             ((400 <=? Z.of_nat k) && (Z.of_nat k <=? 499)))
          (seq 100 900) = true.
Proof. vm_compute. reflexivity. Qed.

Lemma leading_four c :
  100 <= c <= 999 ->
  String.prefix "4" (to_string (VNum c)) = (400 <=? c) && (c <=? 499).
Proof.
  intros Hc.
  assert (Hin : In (Z.to_nat c) (seq 100 900)) by (apply in_seq; lia).
  pose proof (proj1 (forallb_forall _ _) prefix4_table (Z.to_nat c) Hin) as H.
  cbv beta in H. rewrite Z2Nat.id in H by lia.
  now apply Bool.eqb_prop.
Qed.

Lemma assoc_enumerable k v l :
  assoc k l = Some (true, v) ->
  assoc k (filter (fun p : string * (bool * value) => fst (snd p)) l) = Some (true, v).
Proof.
  induction l as [|[k0 [e0 v0]] l IH]; simpl; [discriminate|].
  destruct (String.eqb k k0) eqn:E.
  - intros [= -> ->]. simpl. now rewrite E.
  - intros H. destruct e0; simpl; [rewrite E|]; auto.
Qed.

Lemma assoc_not_enumerable k l :
  (forall e v, In (k, (e, v)) l -> e = false) ->
  assoc k (filter (fun p : string * (bool * value) => fst (snd p)) l) = None.
Proof.
  induction l as [|[k0 [e0 v0]] l IH]; simpl; [reflexivity|].
  intros H. destruct e0; simpl.
  - destruct (String.eqb k k0) eqn:E.
    + apply String.eqb_eq in E. subst k0.
      discriminate (H true v0 (or_introl eq_refl)).
    + apply IH. intros e v Hin. apply (H e v). now right.
  - apply IH. intros e v Hin. apply (H e v). now right.
Qed.

Lemma In_update_other k k' e v v' l :
  k <> k' -> In (k, (e, v)) (update k' v' l) -> In (k, (e, v)) l.
Proof.
  intros Hk. induction l as [|[k0 [e0 v0]] l IH]; simpl.
  - intros [[= -> _ _] | []]. contradiction.
  - destruct (String.eqb k' k0) eqn:E; simpl.
    + apply String.eqb_eq in E. subst k0.
      intros [[= -> _ _] | Hin]; [contradiction | now right].
    + intros [Heq | Hin]; [now left | right; auto].
Qed.

Lemma with_defaults_fixed err e1 v1 e2 v2 :
  assoc "statusCode" (own err) = Some (e1, v1) -> truthy v1 = true ->
  assoc "message" (own err) = Some (e2, v2) -> truthy v2 = true ->
  with_defaults err = err.
Proof.
  intros Hs Ht Hm Hu. unfold with_defaults.
  assert (Gs : get err "statusCode" = v1) by (unfold get; now rewrite Hs).
  assert (Gm : get err "message" = v2) by (unfold get; now rewrite Hm).
  assert (O1 : or_else v1 (VNum 500) = v1) by (unfold or_else; now rewrite Ht).
  assert (O2 : or_else v2 (VStr "Internal Server Error") = v2)
    by (unfold or_else; now rewrite Hu).
  rewrite Gs, O1.
  replace (set err "statusCode" v1) with err
    by (symmetry; apply set_present; eauto).
  rewrite Gm, O2. apply set_present; eauto.
Qed.

Lemma member_none v k : member v k = None <-> nullish v.
Proof.
  unfold nullish. destruct v; simpl; split; intros H; try discriminate; auto;
    destruct H; discriminate.
Qed.

Lemma messages_none vals : messages vals = None <-> Exists nullish vals.
Proof.
  induction vals as [|v vals IH]; simpl.
  - split; [discriminate | intros H; inversion H].
  - destruct (member v "message") eqn:Hm.
    + destruct (messages vals) eqn:Hms.
      * split; [discriminate|]. intros H. inversion H; subst.
        -- apply (member_none v "message") in H1. congruence.
        -- apply IH in H1. discriminate.
      * split; [|reflexivity]. intros _. right. now apply IH.
    + split; [|reflexivity]. intros _. left. now apply (member_none v "message").
Qed.

Lemma validation_message_none errors :
  validation_message errors = None
  <-> nullish errors
      \/ exists vals, Object_values errors = Some vals /\ Exists nullish vals.
Proof.
  unfold validation_message. destruct (Object_values errors) as [vals|] eqn:Hv.
  - destruct (messages vals) eqn:Hm.
    + split; [discriminate|]. intros [Hn | [vals' [[= <-] Hex]]].
      * destruct Hn; subst; discriminate.
      * apply messages_none in Hex. congruence.
    + split; [|reflexivity]. intros _. right. exists vals. split; [reflexivity|].
      now apply messages_none.
  - split; [|reflexivity]. intros _. left.
    destruct errors; simpl in Hv; try discriminate; unfold nullish; auto.
Qed.

Lemma AppError_status rt m code flag :
  get (AppError rt m code flag) "status"
  = VStr (if String.prefix "4" (to_string code) then "fail" else "error").
Proof. destruct m; reflexivity. Qed.

Lemma AppError_name rt m code flag : get (AppError rt m code flag) "name" = VStr "Error".
Proof. destruct m; reflexivity. Qed.

Lemma AppError_code rt m code flag : get (AppError rt m code flag) "code" = VUndef.
Proof. destruct m; reflexivity. Qed.

(** *** X1 *)

(** X1: for a three-digit status code, [new AppError(message, code)] has
    status ["fail"] exactly when the code is 400..499, and ["error"]
    otherwise. *)
Theorem AppError_status_by_class rt m c flag :
  100 <= c <= 999 ->
  get (AppError rt m (VNum c) flag) "status"
  = VStr (if (400 <=? c) && (c <=? 499) then "fail" else "error").
Proof.
  intros Hc. now rewrite AppError_status, (leading_four c Hc).
Qed.

Lemma AppError_status_by_class_witness :
  get (AppError production (VStr "Not found") (VNum 404) VUndef) "status" = VStr "fail"
  /\ get (AppError production (VStr "Unavailable") (VNum 503) VUndef) "status"
     = VStr "error".
Proof.
  split.
  - exact (AppError_status_by_class production (VStr "Not found") 404 VUndef
             ltac:(lia)).
  - exact (AppError_status_by_class production (VStr "Unavailable") 503 VUndef
             ltac:(lia)).
Defined.

Lemma AppError_unclassified rt m code flag : matching (AppError rt m code flag) = [].
Proof.
  unfold matching, rules, matches. simpl filter.
  now rewrite !AppError_name, AppError_code.
Qed.

Lemma passthrough_other err k :
  k <> "statusCode" -> k <> "message" ->
  get (passthrough err) k
  = match assoc k (filter (fun p : string * (bool * value) => fst (snd p))
                          (own (with_defaults err))) with
    | Some (_, v) => v
    | None => VUndef
    end.
Proof.
  intros H1 H2. unfold passthrough.
  rewrite !get_set_other by now apply String.eqb_neq.
  reflexivity.
Qed.

Lemma own_with_defaults err :
  exists sc msg,
    own (with_defaults err) = update "message" msg (update "statusCode" sc (own err)).
Proof. eexists _, _. reflexivity. Qed.

(** *** X2 *)

(** X2: a failure raised as [new AppError(message, code)] with a non-empty
    message and a non-zero code is matched by no rule, is left untouched by
    the handler, and is answered with that code, that message and the status
    the constructor derived. *)
Theorem raised_AppError_round_trip rt rt' m c :
  m <> "" -> c <> 0 ->
  fst (errorHandler rt (AppError rt' (VStr m) (VNum c) VUndef))
  = AppError rt' (VStr m) (VNum c) VUndef /\
  exists r,
    written (errorHandler rt (AppError rt' (VStr m) (VNum c) VUndef)) = Some r /\
    statusCode r = VNum c /\
    get (body r) "message" = VStr m /\
    get (body r) "status" = get (AppError rt' (VStr m) (VNum c) VUndef) "status".
Proof.
  intros Hm Hc.
  assert (Tc : truthy (VNum c) = true)
    by (simpl; now rewrite (proj2 (Z.eqb_neq c 0) Hc)).
  assert (Tm : truthy (VStr m) = true)
    by (simpl; now rewrite (proj2 (String.eqb_neq m "") Hm)).
  assert (Hfix : with_defaults (AppError rt' (VStr m) (VNum c) VUndef)
                 = AppError rt' (VStr m) (VNum c) VUndef).
  { apply (with_defaults_fixed _ true (VNum c) false (VStr m)); auto. }
  split.
  - now rewrite errorHandler_record.
  - destruct (unclassified_response rt _ (AppError_unclassified rt' (VStr m) (VNum c) VUndef))
      as [r [Hr [Hs [Hmsg Hst]]]].
    exists r. split; [exact Hr|]. split; [|split].
    + rewrite Hs. unfold get at 1. simpl assoc. unfold or_else. now rewrite Tc.
    + rewrite Hmsg. unfold get at 1. simpl assoc. unfold or_else. now rewrite Tm.
    + rewrite Hst, Hfix. reflexivity.
Qed.

Lemma raised_AppError_round_trip_witness :
  exists r,
    written (errorHandler production (AppError dev (VStr "Not found") (VNum 404) VUndef))
    = Some r /\
    statusCode r = VNum 404 /\
    get (body r) "message" = VStr "Not found" /\
    get (body r) "status" = VStr "fail".
Proof.
  exact (proj2 (raised_AppError_round_trip production dev "Not found" 404
                  ltac:(discriminate) ltac:(discriminate))).
Defined.

(** *** X3 *)

(** X3: the handler raises, writing no response, exactly when the failure is
    named [ValidationError] and its [errors] is [undefined] or [null] or holds
    an [undefined] or [null] entry; in every other case it writes a
    response. *)
Theorem handler_throws_iff rt err :
  (snd (errorHandler rt err) = Threw "TypeError"
   <-> is_str (get err "name") "ValidationError" = true
       /\ (nullish (get err "errors")
           \/ exists vals, Object_values (get err "errors") = Some vals
                           /\ Exists nullish vals))
  /\ (snd (errorHandler rt err) = Threw "TypeError"
      \/ exists r, snd (errorHandler rt err) = Returned r).
Proof.
  rewrite <- validation_message_none.
  unfold errorHandler; cbv zeta.
  change (set (set err "statusCode" _) "message" _) with (with_defaults err).
  rewrite ?with_defaults_get by reflexivity.
  destruct (is_str (get err "name") "ValidationError");
    [destruct (validation_message (get err "errors"))|]; simpl; split;
    try (split; [discriminate | intros [? ?]; discriminate]);
    try (right; eexists; reflexivity).
  - split; auto.
  - now left.
Qed.

Lemma handler_throws_iff_witness :
  snd (errorHandler production
         (set (bare_error "ValidationError\n    at save.js:2") "name"
              (VStr "ValidationError")))
  = Threw "TypeError".
Proof.
  apply (proj1 (handler_throws_iff production _)).
  split; [reflexivity|]. left. left. reflexivity.
Defined.

(** *** X4 *)

(** X4: the status code of every response the handler writes is truthy: it is
    400 or 401 for a classified failure and otherwise the failure's own code,
    or 500 when that is missing or falsy. *)
Theorem status_code_is_never_falsy rt err r :
  written (errorHandler rt err) = Some r ->
  truthy (statusCode r) = true /\
  (statusCode r = VNum 400 \/ statusCode r = VNum 401 \/
   statusCode r = or_else (get err "statusCode") (VNum 500)).
Proof.
  unfold written, errorHandler; cbv zeta.
  change (set (set err "statusCode" _) "message" _) with (with_defaults err).
  rewrite ?with_defaults_get by reflexivity.
  destruct (is_str (get err "name") "CastError");
  destruct (is_num (get err "code") 11000);
  destruct (is_str (get err "name") "ValidationError");
  destruct (is_str (get err "name") "JsonWebTokenError");
  destruct (is_str (get err "name") "TokenExpiredError");
  try destruct (validation_message (get err "errors"));
  cbv beta iota; cbn [snd statusCode]; try discriminate; intros [= <-];
  cbn [statusCode]; rewrite ?AppError_status;
  try (split; [reflexivity | auto]).
  all: rewrite get_set_same, with_defaults_statusCode.
  all: split; [now apply or_else_truthy | auto].
Qed.

Lemma status_code_is_never_falsy_witness :
  exists r, written (errorHandler production (bare_error "Error")) = Some r
            /\ truthy (statusCode r) = true.
Proof.
  eexists. split; [reflexivity|].
  exact (proj1 (status_code_is_never_falsy production (bare_error "Error") _ eq_refl)).
Defined.

(** *** X5 *)

(** X5: in a development build the [stack] of the body is read from what
    the handler answers with, not from the failure.  For a failure no rule
    matches that is the spread copy: the body has the failure's own [stack]
    when that property is enumerable (a thrown plain object), and no [stack]
    at all when it is not (every [Error]).  For a classified failure it is
    the trace captured for the replacement [AppError]. *)
Theorem development_stack_field rt err r :
  development rt = true ->
  written (errorHandler rt err) = Some r ->
  (matching err = [] ->
   (forall v, assoc "stack" (own err) = Some (true, v) ->
              get (body r) "stack" = v) /\
   ((forall e v, In ("stack", (e, v)) (own err) -> e = false) ->
    get (body r) "stack" = VUndef)) /\
  (forall k code text,
      last_match err = Some k ->
      entry err k = Some (code, text) ->
      get (body r) "stack" = VStr (captureStackTrace rt (VStr text))).
Proof.
  intros Hdev Hr. unfold written in Hr. split.
  - intros Hnone.
    rewrite (errorHandler_unclassified rt err Hnone) in Hr. injection Hr as <-.
    cbn [body]. unfold get at 1 2. simpl assoc. rewrite Hdev.
    rewrite passthrough_other by discriminate.
    destruct (own_with_defaults err) as [sc [msg ->]]. split.
    + intros v Hv. rewrite (assoc_enumerable "stack" v); [reflexivity|].
      now rewrite !assoc_update_other by reflexivity.
    + intros Hstack. rewrite assoc_not_enumerable; [reflexivity|].
      intros e v Hin. apply (Hstack e v).
      apply In_update_other in Hin; [|discriminate].
      now apply In_update_other in Hin.
  - intros k code text Hlast Hentry.
    rewrite (errorHandler_classified rt err k code text Hlast Hentry) in Hr.
    injection Hr as <-. cbn [body]. unfold classified_body, get. simpl assoc.
    now rewrite Hdev.
Qed.

Lemma development_stack_field_witness :
  (exists r, written (errorHandler dev db_failure) = Some r
             /\ get (body r) "stack" = VUndef) /\
  (exists r, written (errorHandler dev thrown_object) = Some r
             /\ get (body r) "stack" = VStr "at handler.js:3").
Proof.
  split; eexists; (split; [reflexivity|]).
  - refine (proj2 (proj1 (development_stack_field dev db_failure _
                            eq_refl eq_refl) eq_refl) _).
    intros e v [[= <- _] | [[=] | []]]. reflexivity.
  - exact (proj1 (proj1 (development_stack_field dev thrown_object _
                           eq_refl eq_refl) eq_refl)
             (VStr "at handler.js:3") eq_refl).
Defined.

(** *** X6 *)

(** X6: for a failure no rule matches, the [error] field of the body carries
    every own enumerable property of the failure with its value (besides
    [statusCode] and [message], which it always has), in every build. *)
Theorem detail_carries_enumerable_properties rt err r k v :
  matching err = [] ->
  written (errorHandler rt err) = Some r ->
  assoc k (own err) = Some (true, v) ->
  k <> "statusCode" -> k <> "message" ->
  exists detail,
    get (body r) "error" = of_object detail /\
    get detail k = v /\
    get detail "statusCode" = statusCode r /\
    get detail "message" = get (body r) "message".
Proof.
  intros Hnone Hr Hk H1 H2. unfold written in Hr.
  rewrite (errorHandler_unclassified rt err Hnone) in Hr. injection Hr as <-.
  exists (passthrough err). cbn [body statusCode]. repeat split.
  rewrite passthrough_other by assumption.
  destruct (own_with_defaults err) as [sc [msg ->]].
  rewrite (assoc_enumerable k v); [reflexivity|].
  rewrite !assoc_update_other by now apply String.eqb_neq.
  exact Hk.
Qed.

Lemma detail_carries_enumerable_properties_witness :
  exists r detail,
    written (errorHandler production
               (set db_failure "sql" (VStr "SELECT * FROM users"))) = Some r /\
    get (body r) "error" = of_object detail /\
    get detail "sql" = VStr "SELECT * FROM users".
Proof.
  eexists.
  destruct (detail_carries_enumerable_properties production
              (set db_failure "sql" (VStr "SELECT * FROM users")) _
              "sql" (VStr "SELECT * FROM users")
              eq_refl eq_refl eq_refl ltac:(discriminate) ltac:(discriminate))
    as [detail [Hd [Hv _]]].
  exists detail. split; [reflexivity|]. split; [exact Hd | exact Hv].
Defined.

(** ** Further properties of the configuration manager *)

Module ConfigProperties.
Import Config.
Local Open Scope config_scope.

(** *** Helper facts *)

Lemma loadConfig_unfolded w s :
  loadConfig w s
  = match gathered w s with
    | (s2, Throw m) => (s2, Throw ("Error de configuración: " ++ m))
    | (s2, Ok _) =>
        match snd (validateConfig w s2) with
        | Ok _ => (mkState (mkConfigManager (config (this s2)) true) (process_env s2),
                   Ok tt)
        | Throw m => (s2, Throw ("Error de configuración: " ++ m))
        end
    end.
Proof.
  unfold gathered, loadConfig, try_catch, bind, read_state, write_this, throw.
  destruct (loadEnvConfig w s) as [s1 [[]|m1]]; [|reflexivity].
  destruct (loadEnvironmentConfig w s1) as [s2 [[]|m2]]; [|reflexivity].
  pose proof (ConfigFacts.validateConfig_state w s2) as Hs.
  destruct (validateConfig w s2) as [s3 [[]|m3]]; simpl in Hs; subst s3; reflexivity.
Qed.

Lemma startup_unfolded w env :
  startup w env
  = match gathered w (mkState constructor env) with
    | (s2, Throw _) => Exited 1 s2
    | (s2, Ok _) =>
        match snd (validateConfig w s2) with
        | Ok _ => Running (mkState (mkConfigManager (config (this s2)) true)
                                   (process_env s2))
        | Throw _ => Exited 1 s2
        end
    end.
Proof.
  unfold startup. rewrite loadConfig_unfolded.
  destruct (gathered w _) as [s2 [[]|m]]; [|reflexivity].
  destruct (snd (validateConfig w s2)); reflexivity.
Qed.

(** What a configuration must satisfy for [validateConfig] to return. *)
Lemma validateConfig_returns_iff w s :
  snd (validateConfig w s) = Ok tt
  <-> truthy (JS.get (config (this s)) "port") = true
      /\ truthy (JS.get (config (this s)) "databaseUrl") = true
      /\ truthy (JS.get (config (this s)) "jwtSecret") = true
      /\ less w (JS.get (config (this s)) "port") 1 = false
      /\ greater w (JS.get (config (this s)) "port") 65535 = false
      /\ (exists url, JS.get (config (this s)) "databaseUrl" = VStr url
                      /\ (String.prefix "mongodb://" url = true
                          \/ String.prefix "postgres://" url = true))
      /\ (truthy (JS.get (config (this s)) "jwtExpiration") = true ->
          isNaN w (JS.get (config (this s)) "jwtExpiration") = false).
Proof.
  unfold validateConfig, bind, read_state, throw, ret, required.
  cbv beta iota zeta. cbn [filter]. cbv beta.
  set (cfg := config (this s)). split.
  - destruct (truthy (JS.get cfg "port")) eqn:Hp;
    destruct (truthy (JS.get cfg "databaseUrl")) eqn:Hd;
    destruct (truthy (JS.get cfg "jwtSecret")) eqn:Hj; simpl; try discriminate.
    destruct (less w (JS.get cfg "port") 1) eqn:Hl; simpl; try discriminate.
    destruct (greater w (JS.get cfg "port") 65535) eqn:Hg; simpl; try discriminate.
    destruct (JS.get cfg "databaseUrl") as [| |b|n|url|o i|f] eqn:Hu; simpl;
      try discriminate.
    destruct (String.prefix "mongodb://" url) eqn:Hm;
    destruct (String.prefix "postgres://" url) eqn:Hq; simpl; try discriminate;
    destruct (truthy (JS.get cfg "jwtExpiration")) eqn:Ht;
    destruct (isNaN w (JS.get cfg "jwtExpiration")) eqn:Hn; simpl;
      try discriminate; intros _; repeat split; eauto; discriminate.
  - intros (Hp & Hd & Hj & Hl & Hg & (url & Hu & Hpre) & Hexp).
    rewrite Hp, Hj. rewrite Hu in *. rewrite Hd. simpl. rewrite Hl, Hg. simpl.
    assert (Hscheme : negb (String.prefix "mongodb://" url)
                      && negb (String.prefix "postgres://" url) = false).
    { destruct Hpre as [-> | ->]; [reflexivity | apply andb_false_r]. }
    rewrite Hscheme.
    destruct (truthy (JS.get cfg "jwtExpiration")); [|reflexivity].
    now rewrite (Hexp eq_refl).
Qed.

Lemma lookup_get o k : Object_prototype_member k = VUndef -> lookup o k = JS.get o k.
Proof.
  intros H. unfold lookup, JS.get.
  destruct (assoc k (own o)) as [[e v]|]; [reflexivity|].
  destruct (assoc k (inh o)); [reflexivity | exact H].
Qed.

Lemma get_literal_head k v rest : JS.get (literal ((k, v) :: rest)) k = v.
Proof. unfold JS.get, literal. simpl. now rewrite String.eqb_refl. Qed.

Lemma match_ENOENT (A : Type) (code : string) (a b : A) :
  match code with "ENOENT" => a | _ => b end
  = if String.eqb code "ENOENT" then a else b.
Proof.
  destruct (String.eqb code "ENOENT") eqn:E.
  - apply String.eqb_eq in E. now subst code.
  - apply String.eqb_neq in E.
    repeat match goal with
           | |- context [match ?x with _ => _ end] => destruct x; try reflexivity
           end; congruence.
Qed.

Lemma define_all_last o kvs k v : JS.get (define_all o (kvs ++ [(k, v)])) k = v.
Proof.
  unfold define_all. rewrite fold_left_app. simpl. apply get_set_same.
Qed.

Lemma loadEnvironmentConfig_environment w s s' :
  loadEnvironmentConfig w s = (s', Ok tt) ->
  JS.get (config (this s')) "environment"
  = VStr (env_or (assoc "NODE_ENV" (process_env s)) "development")
  /\ process_env s' = process_env s.
Proof.
  unfold loadEnvironmentConfig, bind, read_state, write_this, throw.
  cbv beta iota zeta.
  destruct (readFile w _) as [text|code message].
  - destruct (JSON_parse w text); [|discriminate].
    intros [= <-]. split; [|reflexivity]. cbn [this config].
    rewrite app_assoc. apply define_all_last.
  - rewrite match_ENOENT. destruct (String.eqb code "ENOENT"); [|discriminate].
    intros [= <-]. split; [|reflexivity]. apply get_set_same.
Qed.

Lemma gathered_isLoaded w s :
  isLoaded (this (fst (gathered w s))) = isLoaded (this s).
Proof.
  unfold gathered, bind.
  pose proof (ConfigFacts.loadEnvConfig_this w s) as H1.
  destruct (loadEnvConfig w s) as [s1 [[]|m1]]; simpl in *.
  - now rewrite ConfigFacts.loadEnvironmentConfig_isLoaded, H1.
  - now rewrite H1.
Qed.

Lemma gathered_environment w s s2 :
  gathered w s = (s2, Ok tt) ->
  JS.get (config (this s2)) "environment"
  = VStr (env_or (assoc "NODE_ENV" (process_env s2)) "development").
Proof.
  unfold gathered, bind.
  destruct (loadEnvConfig w s) as [s1 [[]|m1]]; [|discriminate].
  intros H. destruct (loadEnvironmentConfig_environment w s1 s2 H) as [He Hp].
  now rewrite Hp.
Qed.

Lemma startup_exits w env :
  snd (validateConfig w (fst (gathered w (mkState constructor env)))) <> Ok tt ->
  exists s, startup w env = Exited 1 s /\ isLoaded (this s) = false.
Proof.
  intros Hbad. rewrite startup_unfolded.
  pose proof (gathered_isLoaded w (mkState constructor env)) as Hl.
  destruct (gathered w _) as [s2 [[]|m]]; simpl in *.
  - destruct (snd (validateConfig w s2)) as [[]|m]; [contradiction|].
    now exists s2.
  - now exists s2.
Qed.

Lemma startup_running w env s :
  startup w env = Running s ->
  exists s2, gathered w (mkState constructor env) = (s2, Ok tt)
             /\ snd (validateConfig w s2) = Ok tt
             /\ s = mkState (mkConfigManager (config (this s2)) true) (process_env s2).
Proof.
  rewrite startup_unfolded.
  destruct (gathered w _) as [s2 [[]|m]]; [|discriminate].
  destruct (snd (validateConfig w s2)) as [[]|m] eqn:Hv; [|discriminate].
  intros [= <-]. now exists s2.
Qed.

(** *** X7 *)

(** X7: a process that is running after start-up holds a validated
    configuration: the manager is marked loaded; [port], [databaseUrl] and
    [jwtSecret] are truthy; a numeric port is within 1..65535; [databaseUrl]
    is a string beginning with [mongodb://] or [postgres://]; a truthy
    [jwtExpiration] converts to a number; and [environment] is the value of
    [NODE_ENV] (after [.env] was applied) or ["development"], whatever the
    settings file says. *)
Theorem running_configuration_is_validated w env s :
  startup w env = Running s ->
  isLoaded (this s) = true /\
  truthy (JS.get (config (this s)) "port") = true /\
  (forall p, JS.get (config (this s)) "port" = VNum p -> 1 <= p <= 65535) /\
  (exists url, JS.get (config (this s)) "databaseUrl" = VStr url
               /\ (String.prefix "mongodb://" url = true
                   \/ String.prefix "postgres://" url = true)) /\
  truthy (JS.get (config (this s)) "jwtSecret") = true /\
  (truthy (JS.get (config (this s)) "jwtExpiration") = true ->
   isNaN w (JS.get (config (this s)) "jwtExpiration") = false) /\
  JS.get (config (this s)) "environment"
  = VStr (env_or (assoc "NODE_ENV" (process_env s)) "development").
Proof.
  intros Hrun.
  destruct (startup_running w env s Hrun) as [s2 [Hg [Hv ->]]].
  apply validateConfig_returns_iff in Hv.
  destruct Hv as (Hp & Hd & Hj & Hl & Hgt & Hurl & Hexp).
  cbn [this config isLoaded process_env].
  repeat split; auto.
  - unfold less in Hl. rewrite H in Hl. simpl in Hl. lia.
  - unfold greater in Hgt. rewrite H in Hgt. simpl in Hgt. lia.
  - exact (gathered_environment w _ s2 Hg).
Qed.

Lemma running_configuration_is_validated_witness :
  exists s, startup well_formed in_production = Running s
            /\ JS.get (config (this s)) "environment" = VStr "production"
            /\ isLoaded (this s) = true.
Proof.
  eexists. split; [reflexivity|].
  destruct (running_configuration_is_validated well_formed in_production _ eq_refl)
    as (Hl & _ & _ & _ & _ & _ & He).
  split; [exact He | exact Hl].
Defined.

(** *** X8 *)

(** X8: without a settings file the process cannot start: when every file
    other than [.env] is missing, start-up ends in [process.exit(1)] whatever
    [.env] and the environment variables hold, since the required keys are
    read from the settings file only. *)
Theorem missing_settings_file_is_fatal w env :
  (forall path, path <> ".env" ->
                exists message, readFile w path = ReadError "ENOENT" message) ->
  exists s, startup w env = Exited 1 s /\ isLoaded (this s) = false.
Proof.
  intros Hmissing. apply ConfigFacts.startup_refuses. left.
  exists "port". split; [now left|].
  unfold snapshot, bind.
  destruct (loadEnvConfig w _) as [s1 [[]|m1]] eqn:H1.
  - pose proof (ConfigFacts.loadEnvConfig_this w (mkState constructor env)) as Ht.
    rewrite H1 in Ht. simpl in Ht.
    unfold loadEnvironmentConfig, bind, read_state, write_this, throw.
    cbv beta iota zeta.
    match goal with
    | |- context [readFile w ?p] =>
        destruct (Hmissing p) as [message ->]; [discriminate|]
    end.
    simpl. rewrite Ht. reflexivity.
  - pose proof (ConfigFacts.loadEnvConfig_this w (mkState constructor env)) as Ht.
    rewrite H1 in Ht. simpl in *. now rewrite Ht.
Qed.

Lemma missing_settings_file_is_fatal_witness :
  exists s, startup empty_disk
              [("PORT", "3000"); ("MONGODB_URI", "mongodb://localhost/app");
               ("JWT_SECRET", "s3cret")]
            = Exited 1 s.
Proof.
  destruct (missing_settings_file_is_fatal empty_disk
              [("PORT", "3000"); ("MONGODB_URI", "mongodb://localhost/app");
               ("JWT_SECRET", "s3cret")]) as [s [Hs _]].
  - intros path _. eexists. reflexivity.
  - exists s. exact Hs.
Defined.

(** *** X9 *)

(** X9: start-up also ends in [process.exit(1)] when the snapshot's
    [databaseUrl] is not a string beginning with [mongodb://] or
    [postgres://], or when its [jwtExpiration] is truthy and converts to no
    number. *)
Theorem unaccepted_settings_are_fatal w env :
  (forall url, JS.get (snapshot w env) "databaseUrl" = VStr url ->
               String.prefix "mongodb://" url = false
               /\ String.prefix "postgres://" url = false)
  \/ (truthy (JS.get (snapshot w env) "jwtExpiration") = true
      /\ isNaN w (JS.get (snapshot w env) "jwtExpiration") = true) ->
  exists s, startup w env = Exited 1 s /\ isLoaded (this s) = false.
Proof.
  intros Hbad. apply startup_exits. intros Hok.
  apply validateConfig_returns_iff in Hok.
  destruct Hok as (_ & _ & _ & _ & _ & (url & Hu & Hpre) & Hexp).
  change (config (this (fst (gathered w (mkState constructor env)))))
    with (snapshot w env) in *.
  destruct Hbad as [Hurl | [Ht Hn]].
  - destruct (Hurl url Hu) as [Hm Hq]. destruct Hpre; congruence.
  - rewrite (Hexp Ht) in Hn. discriminate.
Qed.

Lemma unaccepted_settings_are_fatal_witness :
  exists s,
    startup (world_with [("port", VNum 8080);
                         ("databaseUrl", VStr "mysql://db.internal/app");
                         ("jwtSecret", VStr "s3cret")]) in_production
    = Exited 1 s.
Proof.
  destruct (unaccepted_settings_are_fatal
              (world_with [("port", VNum 8080);
                           ("databaseUrl", VStr "mysql://db.internal/app");
                           ("jwtSecret", VStr "s3cret")]) in_production)
    as [s [Hs _]].
  - left. intros url [= <-]. split; reflexivity.
  - exists s. exact Hs.
Defined.

(** *** X10 *)

Lemma plain_literal kvs : plain (literal kvs).
Proof.
  split; [reflexivity|]. unfold literal; simpl.
  induction kvs; simpl; constructor; auto.
Qed.

Lemma plain_set o k v : plain o -> plain (set o k v).
Proof.
  intros [Hi Ho]. split; [exact Hi|]. unfold set; simpl.
  induction (own o) as [|[k0 [e0 v0]] l IH]; simpl.
  - repeat constructor.
  - inversion Ho; subst. destruct (String.eqb k k0); constructor; auto.
Qed.

Lemma plain_define_all kvs : forall o, plain o -> plain (define_all o kvs).
Proof.
  unfold define_all. induction kvs as [|kv kvs IH]; simpl; intros o Ho;
    [exact Ho | apply IH, plain_set, Ho].
Qed.

Lemma spread_plain o : plain o -> spread o = o.
Proof.
  destruct o as [ow ih]. intros [Hi Ho]. simpl in *. subst ih.
  unfold spread; simpl. f_equal.
  induction Ho as [|[k [e v]] l He _ IH]; simpl; [reflexivity|].
  simpl in He. subst e. simpl. now rewrite IH.
Qed.

Lemma loadEnvironmentConfig_plain w s :
  plain (config (this s)) -> plain (config (this (fst (loadEnvironmentConfig w s)))).
Proof.
  intros Hp. unfold loadEnvironmentConfig, bind, read_state, write_this, throw.
  cbv beta iota zeta.
  destruct (readFile w _) as [text|code message].
  - destruct (JSON_parse w text); [|exact Hp].
    cbn [fst this config]. apply plain_define_all, plain_literal.
  - rewrite match_ENOENT. destruct (String.eqb code "ENOENT"); [|exact Hp].
    cbn [fst this config]. now apply plain_set.
Qed.

Lemma gathered_plain w s :
  plain (config (this s)) -> plain (config (this (fst (gathered w s)))).
Proof.
  intros Hp. unfold gathered, bind.
  pose proof (ConfigFacts.loadEnvConfig_this w s) as H1.
  destruct (loadEnvConfig w s) as [s1 [[]|m1]]; simpl in *.
  - apply loadEnvironmentConfig_plain. now rewrite H1.
  - now rewrite H1.
Qed.

(** X10: once start-up has succeeded, [getAll()] returns a copy that equals
    the stored configuration, property for property and in the same order:
    the configuration is a plain object, so the spread loses nothing. *)
Theorem getAll_returns_the_configuration w env s :
  startup w env = Running s ->
  plain (config (this s)) /\
  getAll s = (s, Ok (config (this s))).
Proof.
  intros Hrun.
  destruct (startup_running w env s Hrun) as [s2 [Hg [_ ->]]].
  assert (Hp : plain (config (this s2))).
  { replace s2 with (fst (gathered w (mkState constructor env)))
      by now rewrite Hg.
    apply gathered_plain. apply (plain_literal []). }
  split; [exact Hp|].
  unfold getAll, bind, read_state, ret. cbn [this isLoaded config negb].
  now rewrite (spread_plain _ Hp).
Qed.

Lemma getAll_returns_the_configuration_witness :
  exists s, startup well_formed in_production = Running s
            /\ getAll s = (s, Ok (config (this s))).
Proof.
  eexists. split; [reflexivity|].
  exact (proj2 (getAll_returns_the_configuration well_formed in_production _ eq_refl)).
Defined.

(** *** X11 *)

(** X11: once start-up has succeeded the grouped accessors return without
    throwing, and never fall back on their defaults for the required keys:
    [getServerConfig().port] is the configured, truthy port; 
    [getDatabaseConfig().url] is the configured string beginning with
    [mongodb://] or [postgres://]; [getSecurityConfig().jwtSecret] is the
    configured, truthy secret. *)
Theorem grouped_accessors_after_startup w env s :
  startup w env = Running s ->
  exists server database security,
    getServerConfig s = (s, Ok server) /\
    getDatabaseConfig s = (s, Ok database) /\
    getSecurityConfig s = (s, Ok security) /\
    JS.get server "port" = JS.get (config (this s)) "port" /\
    truthy (JS.get server "port") = true /\
    JS.get database "url" = JS.get (config (this s)) "databaseUrl" /\
    (exists url, JS.get database "url" = VStr url
                 /\ (String.prefix "mongodb://" url = true
                     \/ String.prefix "postgres://" url = true)) /\
    JS.get security "jwtSecret" = JS.get (config (this s)) "jwtSecret" /\
    truthy (JS.get security "jwtSecret") = true.
Proof.
  intros Hrun.
  destruct (startup_running w env s Hrun) as [s2 [Hg [Hv ->]]].
  apply validateConfig_returns_iff in Hv.
  destruct Hv as (Hp & Hd & Hj & _ & _ & (url & Hu & Hpre) & _).
  unfold getServerConfig, getDatabaseConfig, getSecurityConfig, Config.get,
    bind, read_state, ret, throw.
  cbn [this isLoaded config negb].
  eexists _, _, _. split; [reflexivity|]. split; [reflexivity|].
  split; [reflexivity|].
  set (cfg := config (this s2)) in *.
  assert (Gp : forall d, match JS.get cfg "port" with VUndef => d | v => v end
                         = JS.get cfg "port")
    by (intros d; destruct (JS.get cfg "port"); try reflexivity; discriminate).
  assert (Gj : forall d, match JS.get cfg "jwtSecret" with VUndef => d | v => v end
                         = JS.get cfg "jwtSecret")
    by (intros d; destruct (JS.get cfg "jwtSecret"); try reflexivity; discriminate).
  rewrite !get_literal_head.
  rewrite !(lookup_get cfg) by reflexivity.
  rewrite Hu in *. rewrite !Gp, !Gj. repeat split; auto.
  exists url. auto.
Qed.

Lemma grouped_accessors_after_startup_witness :
  exists s server,
    startup well_formed in_production = Running s /\
    getServerConfig s = (s, Ok server) /\
    JS.get server "port" = VNum 8080.
Proof.
  eexists.
  destruct (grouped_accessors_after_startup well_formed in_production _ eq_refl)
    as (server & _ & _ & Hs & _ & _ & Hp & _).
  exists server. split; [reflexivity|]. split; [exact Hs | exact Hp].
Defined.

(** *** X12 *)

Lemma assoc_assign k k' v t :
  assoc k (assign k' v t) = if String.eqb k k' then Some v else assoc k t.
Proof.
  induction t as [|[k0 v0] t IH]; simpl.
  - reflexivity.
  - destruct (String.eqb k' k0) eqn:E; simpl.
    + apply String.eqb_eq in E. subst k0.
      destruct (String.eqb k k'); reflexivity.
    + rewrite IH. destruct (String.eqb k k0) eqn:E0; [|reflexivity].
      apply String.eqb_eq in E0. subst k0.
      rewrite String.eqb_sym in E. now rewrite E.
Qed.

Lemma assoc_absent (A : Type) k (l : list (string * A)) :
  ~ In k (map fst l) -> assoc k l = None.
Proof.
  induction l as [|[k0 a] l IH]; simpl; [reflexivity|].
  intros H. destruct (String.eqb k k0) eqn:E.
  - apply String.eqb_eq in E. subst. tauto.
  - apply IH. tauto.
Qed.

Lemma assoc_Object_assign k source : forall target,
  k <> "" ->
  NoDup (map fst source) ->
  assoc k (Object_assign target source)
  = match assoc k source with
    | Some v => Some v
    | None => assoc k target
    end.
Proof.
  unfold Object_assign. intros target Hk. revert target.
  induction source as [|[k0 v0] source IH]; simpl; intros target Hnd;
    [reflexivity|].
  inversion Hnd as [|? ? Hnotin Hnd']; subst.
  rewrite (IH _ Hnd'). unfold set_variable.
  destruct (String.eqb k k0) eqn:E.
  - apply String.eqb_eq in E. subst k0.
    rewrite (proj2 (String.eqb_neq k "") Hk), assoc_assign, String.eqb_refl.
    now rewrite (assoc_absent _ _ _ Hnotin).
  - destruct (String.eqb k0 ""); [reflexivity|].
    now rewrite assoc_assign, E.
Qed.

Lemma assoc_Object_assign_empty source : forall target,
  assoc "" (Object_assign target source) = assoc "" target.
Proof.
  unfold Object_assign.
  induction source as [|[k0 v0] source IH]; simpl; intros target; [reflexivity|].
  rewrite IH. unfold set_variable.
  destruct (String.eqb k0 "") eqn:E; [reflexivity|].
  rewrite assoc_assign, String.eqb_sym, E. reflexivity.
Qed.

Lemma keys_assign k v t k' :
  In k' (map fst (assign k v t)) -> k' = k \/ In k' (map fst t).
Proof.
  induction t as [|[k0 v0] t IH]; simpl.
  - intros [<- | []]. now left.
  - destruct (String.eqb k k0); simpl; intros [H | H]; auto.
    destruct (IH H); auto.
Qed.

Lemma NoDup_assign k v t :
  NoDup (map fst t) -> NoDup (map fst (assign k v t)).
Proof.
  induction t as [|[k0 v0] t IH]; simpl; intros Hnd.
  - repeat constructor. tauto.
  - inversion Hnd as [|? ? Hnotin Hnd']; subst.
    destruct (String.eqb k k0) eqn:E; simpl.
    + now constructor.
    + constructor; [|auto]. intros Hin.
      destruct (keys_assign _ _ _ _ Hin) as [-> | Hin']; [|contradiction].
      now rewrite String.eqb_refl in E.
Qed.

Lemma NoDup_parse_env text : NoDup (map fst (parse_env text)).
Proof.
  unfold parse_env.
  set (step := fun acc line => _).
  assert (H : forall lines acc, NoDup (map fst acc) ->
                                NoDup (map fst (fold_left step lines acc))).
  { induction lines as [|line lines IH]; simpl; intros acc Hacc; [exact Hacc|].
    apply IH. unfold step, assign_property.
    destruct (String.eqb _ "__proto__"); [exact Hacc | now apply NoDup_assign]. }
  apply H. constructor.
Qed.

(** X12: when [.env] can be read, [loadEnvConfig] returns without throwing
    and leaves the manager untouched; afterwards every variable with a
    non-empty name that the parsed file assigns has the file's value in
    [process.env], replacing a value the process already had, and the other
    variables keep theirs; an assignment to the empty name leaves no
    trace. *)
Theorem env_file_overrides_environment w s text :
  readFile w ".env" = Content text ->
  snd (loadEnvConfig w s) = Ok tt /\
  this (fst (loadEnvConfig w s)) = this s /\
  (forall k, k <> "" ->
     assoc k (process_env (fst (loadEnvConfig w s)))
     = match assoc k (parse_env text) with
       | Some v => Some v
       | None => assoc k (process_env s)
       end) /\
  assoc "" (process_env (fst (loadEnvConfig w s))) = assoc "" (process_env s).
Proof.
  intros Hread. unfold loadEnvConfig. rewrite Hread.
  unfold bind, read_state, write_env. cbn [fst snd this process_env].
  split; [reflexivity|]. split; [reflexivity|]. split.
  - intros k Hk. apply assoc_Object_assign; [exact Hk | apply NoDup_parse_env].
  - apply assoc_Object_assign_empty.
Qed.

Lemma env_file_overrides_environment_witness :
  assoc "NODE_ENV"
    (process_env (fst (loadEnvConfig (world_with_env env_text [])
                         (mkState constructor [("NODE_ENV", "development")]))))
  = Some "production".
Proof.
  exact (proj1 (proj2 (proj2 (env_file_overrides_environment
                                (world_with_env env_text [])
                                (mkState constructor [("NODE_ENV", "development")])
                                env_text eq_refl)))
           "NODE_ENV" ltac:(discriminate)).
Defined.

(** *** X13 and X14 *)

Lemma append_empty_r_local s : (s ++ "")%string = s.
Proof. induction s as [|c s IH]; simpl; [reflexivity | now rewrite IH]. Qed.

Lemma split_nonempty sep s : split sep s <> [].
Proof.
  destruct s as [|c s]; simpl; [discriminate|].
  destruct (Ascii.eqb c sep); [discriminate|].
  destruct (split sep s); discriminate.
Qed.

Lemma split_app sep a b :
  split sep (a ++ String sep b) = (split sep a ++ split sep b)%list.
Proof.
  induction a as [|c a IH]; simpl.
  - now rewrite Ascii.eqb_refl.
  - destruct (Ascii.eqb c sep); [now rewrite IH|].
    rewrite IH. destruct (split sep a) eqn:E; [|reflexivity].
    now destruct (split_nonempty sep a).
Qed.

Lemma split_free sep s : free_of sep s = true -> split sep s = [s].
Proof.
  induction s as [|c s IH]; simpl; [reflexivity|].
  intros H. apply andb_true_iff in H. destruct H as [Hc Hs].
  apply negb_true_iff in Hc. rewrite Hc, (IH Hs). reflexivity.
Qed.

Lemma free_of_app c a b : free_of c (a ++ b) = free_of c a && free_of c b.
Proof.
  induction a as [|c' a IH]; simpl; [reflexivity|].
  now rewrite IH, andb_assoc.
Qed.

Lemma kept_iff_not_ignorable line :
  negb (String.eqb (trim line) "") && negb (String.prefix "#" line)
  = negb (ignorable line).
Proof. unfold ignorable. now rewrite negb_orb. Qed.

(** X13: a line of [.env] that is blank or begins with [#] contributes
    nothing, wherever it stands: the parsed variables are those of the text
    without that line. *)
Theorem ignorable_lines_are_skipped before line after :
  free_of "010"%char line = true ->
  ignorable line = true ->
  parse_env (before ++ line_feed ++ line ++ line_feed ++ after)
  = parse_env (before ++ line_feed ++ after)
  /\ parse_env (line ++ line_feed ++ after) = parse_env after
  /\ parse_env (before ++ line_feed ++ line) = parse_env before.
Proof.
  intros Hfree Hign. unfold parse_env, line_feed. simpl append.
  rewrite !split_app, (split_free _ _ Hfree), !filter_app.
  assert (Hdrop : filter (fun l => negb (String.eqb (trim l) "")
                                   && negb (String.prefix "#" l)) [line] = []).
  { simpl. now rewrite kept_iff_not_ignorable, Hign. }
  rewrite Hdrop. simpl app. now rewrite app_nil_r.
Qed.

Lemma ignorable_lines_are_skipped_witness :
  parse_env ("NODE_ENV=production" ++ line_feed ++ "# deployment" ++ line_feed
             ++ "PORT=8080")
  = parse_env ("NODE_ENV=production" ++ line_feed ++ "PORT=8080").
Proof.
  exact (proj1 (ignorable_lines_are_skipped "NODE_ENV=production" "# deployment"
                  "PORT=8080" eq_refl eq_refl)).
Defined.

(** X14: a line [key=value] of [.env] assigns the trimmed key the trimmed
    value with every quote character removed; when the value itself contains
    [=], only the part before that second [=] is kept; and when the trimmed
    key is [__proto__] nothing is assigned. *)
Theorem assignment_line_keeps_first_segment key v tail :
  free_of "="%char key = true ->
  free_of "="%char v = true ->
  tail = "" \/ (exists rest, tail = "=" ++ rest) ->
  free_of "010"%char (key ++ "=" ++ v ++ tail) = true ->
  ignorable (key ++ "=" ++ v ++ tail) = false ->
  parse_env (key ++ "=" ++ v ++ tail)
  = if String.eqb (trim key) "__proto__" then []
    else [(trim key, if String.eqb v "" then "" else strip_quotes (trim v))].
Proof.
  intros Hkey Hv Htail Hfree Hkeep. unfold parse_env.
  rewrite (split_free _ _ Hfree). cbn [filter].
  rewrite kept_iff_not_ignorable, Hkeep. cbn [negb fold_left].
  assert (Hparts : exists more,
             split "="%char (key ++ "=" ++ v ++ tail) = key :: v :: more).
  { destruct Htail as [-> | [rest ->]]; simpl append.
    - rewrite append_empty_r_local.
      rewrite split_app, (split_free _ _ Hkey), (split_free _ _ Hv).
      now exists [].
    - rewrite !split_app, (split_free _ _ Hkey), (split_free _ _ Hv).
      now exists (split "="%char rest). }
  destruct Hparts as [more ->]. cbn [hd nth_error]. unfold assign_property.
  destruct (String.eqb (trim key) "__proto__"); reflexivity.
Qed.

Lemma assignment_line_keeps_first_segment_witness :
  parse_env "JWT_SECRET='abc=='" = [("JWT_SECRET", "abc")].
Proof.
  refine (assignment_line_keeps_first_segment "JWT_SECRET" "'abc" "=='"
            eq_refl eq_refl _ eq_refl eq_refl).
  right. exists "='". reflexivity.
Defined.

(** *** X15 *)



End ConfigProperties.

(** ** Further properties of the route handlers *)

(** *** X16 *)

(** X16: [systemInfo] and [welcome] answer 200 with status ["success"], and
    the environment name in their data, exactly when the request carries no
    validation error; on a request with validation errors each writes the
    very response [simulateError] writes, with status ["error"], and sends no
    data.  [healthCheck] answers 200 whatever the request. *)
Theorem validating_handlers
    {request entry exn : Type}
    (validationResult : request -> Result entry)
    (createError : value -> string -> option (list entry) -> object)
    (h : host) (req : request) :
  (isEmpty (validationResult req) = false ->
   systemInfo (exn := exn) validationResult createError h req
   = simulateError validationResult createError req /\
   welcome (exn := exn) validationResult createError h req
   = simulateError validationResult createError req) /\
  (isEmpty (validationResult req) = true ->
   exists info greeting,
     systemInfo (exn := exn) validationResult createError h req
     = Responded (VNum 200)
         (literal [("status", VStr "success"); ("data", of_object info)]) /\
     welcome (exn := exn) validationResult createError h req
     = Responded (VNum 200)
         (literal [("status", VStr "success"); ("data", of_object greeting)]) /\
     get info "environment" = VStr (env_or (host_NODE_ENV h) "development") /\
     get greeting "environment" = VStr (env_or (host_NODE_ENV h) "development") /\
     get greeting "documentation" = VStr "/docs") /\
  (exists body,
     healthCheck (exn := exn) h req = Responded (VNum 200) body
     /\ get body "status" = VStr "success"
     /\ get body "version" = VStr (env_or (npm_package_version h) "1.0.0")).
Proof.
  split; [|split].
  - intros He. unfold systemInfo, welcome, simulateError, answer_failure.
    rewrite He. split; reflexivity.
  - intros He. unfold systemInfo, welcome. rewrite He.
    eexists _, _. repeat split; reflexivity.
  - unfold healthCheck. eexists. repeat split; reflexivity.
Qed.

Lemma validating_handlers_witness :
  welcome (exn := unit) FieldChecks.validationResult createError_plain
    production_host rejected_request
  = Responded (VNum 400)
      (literal [("status", VStr "error"); ("message", VStr "Validation failed")]).
Proof.
  rewrite (proj2 (proj1 (validating_handlers (exn := unit)
                           FieldChecks.validationResult createError_plain
                           production_host rejected_request)
                    eq_refl)).
  reflexivity.
Defined.


(** *** X17 *)

(** X17: behind [validate], the handlers' own validation check never fires.
    When [validate] calls [next()], the request it passes on makes
    [systemInfo] and [welcome] answer 200 with status ["success"], and makes
    [simulateError] take its simulated server error branch. *)
Theorem handlers_behind_validate
    {request validation entry exn : Type}
    (run : validation -> request -> request + exn)
    (validationResult : request -> Result entry)
    (createError : value -> string -> option (list entry) -> object)
    (completion : list validation -> list validation)
    (h : host) (validations : list validation) (req : request) :
  snd (validate run validationResult completion validations req) = Next ->
  (exists info,
     systemInfo (exn := exn) validationResult createError h
       (fst (validate run validationResult completion validations req))
     = Responded (VNum 200)
         (literal [("status", VStr "success"); ("data", of_object info)])) /\
  (exists greeting,
     welcome (exn := exn) validationResult createError h
       (fst (validate run validationResult completion validations req))
     = Responded (VNum 200)
         (literal [("status", VStr "success"); ("data", of_object greeting)])) /\
  simulateError (exn := exn) validationResult createError
    (fst (validate run validationResult completion validations req))
  = answer_failure
      (createError (VNum 500) "Simulated server error for testing purposes" None).
Proof.
  unfold validate.
  destruct (run_all run completion validations req) as [req' [error|]];
    [discriminate|].
  destruct (isEmpty (validationResult req')) eqn:He; [|discriminate].
  intros _. cbn [fst negb].
  unfold systemInfo, welcome, simulateError, answer_failure. rewrite He.
  split; [eexists; reflexivity|]. split; [eexists; reflexivity | reflexivity].
Qed.

Lemma handlers_behind_validate_witness :
  snd (validate FieldChecks.run FieldChecks.validationResult as_declared
         [FieldChecks.name_length]
         (FieldChecks.mkRequest (literal [("name", VStr "Ada")]) [])) = Next /\
  exists greeting,
    welcome (exn := unit) FieldChecks.validationResult createError_plain
      production_host
      (fst (validate FieldChecks.run FieldChecks.validationResult as_declared
              [FieldChecks.name_length]
              (FieldChecks.mkRequest (literal [("name", VStr "Ada")]) [])))
    = Responded (VNum 200)
        (literal [("status", VStr "success"); ("data", of_object greeting)]).
Proof.
  split; [reflexivity|].
  exact (proj1 (proj2 (handlers_behind_validate FieldChecks.run
                         FieldChecks.validationResult createError_plain
                         as_declared production_host [FieldChecks.name_length]
                         (FieldChecks.mkRequest (literal [("name", VStr "Ada")]) [])
                         eq_refl))).
Defined.
